(** * ida-theme-builder: colour validation, override layering and template
      substitution

    A shallow embedding of [scripts/theme/ida-theme-builder.py].

    Python strings are modelled as [string]: a character is a code point
    below 256.  Python dictionaries keep insertion order and the program
    iterates over them, so a dictionary is an association list with
    distinct keys, kept in insertion order.  Python floats are IEEE 754
    binary64 numbers, which is what the primitive [float] type is.
    Exceptions are an explicit error type, output written to the diagnostic
    stream is an explicit list of lines. *)

From Stdlib Require Import Bool Arith ZArith List Ascii String Lia.
From Stdlib Require Import Floats Uint63 DecimalString.
Import ListNotations.

Local Open Scope list_scope.
Local Open Scope string_scope.

(** ** Exceptions *)

(** The exceptions the program raises or lets escape. *)
Inductive exn : Type :=
| ValueError (msg : string)
| OverflowError (msg : string)
| FileNotFoundError (msg : string)
| KeyError (key : string)
| IndexError (msg : string)
| SystemExit (code : nat).

Inductive result (A : Type) : Type :=
| Ok (a : A)
| Raise (e : exn).

Arguments Ok {A} a.
Arguments Raise {A} e.

Definition bind {A B : Type} (r : result A) (k : A -> result B) : result B :=
  match r with
  | Ok a => k a
  | Raise e => Raise e
  end.

Notation "'let*' x ':=' r 'in' k" := (bind r (fun x => k))
  (at level 10, x pattern, r at level 100, k at level 200).

(** The text of an exception, as [str(e)] gives it for the exceptions the
    program formats ([ValueError] built from one message). *)
Definition exn_message (e : exn) : string :=
  match e with
  | ValueError m | OverflowError m | FileNotFoundError m | IndexError m => m
  | KeyError k => "'" ++ k ++ "'"
  | SystemExit code => NilEmpty.string_of_uint (Nat.to_uint code)
  end.

(** ** Python string primitives *)

Module PyStr.

Definition nl : ascii := Ascii.ascii_of_nat 10.

(** Characters [str.strip()] removes: the code points below 256 that
    [str.isspace] accepts. *)
Definition is_space (c : ascii) : bool :=
  let n := Ascii.nat_of_ascii c in
  (Nat.leb 9 n && Nat.leb n 13) || (Nat.leb 28 n && Nat.leb n 32)
  || Nat.eqb n 133 || Nat.eqb n 160.

Definition is_hex_digit (c : ascii) : bool :=
  let n := Ascii.nat_of_ascii c in
  (Nat.leb 48 n && Nat.leb n 57) || (Nat.leb 65 n && Nat.leb n 70)
  || (Nat.leb 97 n && Nat.leb n 102).

(** [str.upper] and [str.lower] on one code point below 256.  The two
    code points whose upper case lies outside this range (U+00B5, U+00FF)
    or is two letters (U+00DF) are left alone. *)
Definition upper_char (c : ascii) : ascii :=
  let n := Ascii.nat_of_ascii c in
  if (Nat.leb 97 n && Nat.leb n 122)
     || (Nat.leb 224 n && Nat.leb n 254 && negb (Nat.eqb n 247))
  then Ascii.ascii_of_nat (n - 32) else c.

Definition lower_char (c : ascii) : ascii :=
  let n := Ascii.nat_of_ascii c in
  if (Nat.leb 65 n && Nat.leb n 90)
     || (Nat.leb 192 n && Nat.leb n 222 && negb (Nat.eqb n 215))
  then Ascii.ascii_of_nat (n + 32) else c.

Fixpoint map (f : ascii -> ascii) (s : string) : string :=
  match s with
  | EmptyString => EmptyString
  | String c t => String (f c) (map f t)
  end.

Definition upper : string -> string := map upper_char.
Definition lower : string -> string := map lower_char.

Fixpoint forallb (p : ascii -> bool) (s : string) : bool :=
  match s with
  | EmptyString => true
  | String c t => p c && forallb p t
  end.

(** [s.lstrip(chars)] for a set of characters given as a predicate. *)
Fixpoint lstrip_by (p : ascii -> bool) (s : string) : string :=
  match s with
  | EmptyString => EmptyString
  | String c t => if p c then lstrip_by p t else s
  end.

Fixpoint rstrip_by (p : ascii -> bool) (s : string) : string :=
  match s with
  | EmptyString => EmptyString
  | String c t =>
      match rstrip_by p t with
      | EmptyString => if p c then EmptyString else String c EmptyString
      | t' => String c t'
      end
  end.

(** [s.strip()] *)
Definition strip (s : string) : string :=
  lstrip_by is_space (rstrip_by is_space s).

(** [s.startswith(p)] *)
Definition startswith (p s : string) : bool := String.prefix p s.

Fixpoint drop (n : nat) (s : string) : string :=
  match n, s with
  | O, _ => s
  | S _, EmptyString => EmptyString
  | S k, String _ t => drop k t
  end.

(** [s[i:j]] for [0 <= i <= j]: the slice is shortened, never an error,
    when the string is too short. *)
Definition slice (i j : nat) (s : string) : string :=
  String.substring i (j - i) s.

(** [s.replace(old, new)]: every non-overlapping occurrence of [old],
    found from the left.  [skip] counts the characters of a match that are
    still to be passed over.  An empty [old] puts [new] before every
    character and at the end. *)
Fixpoint replace_from (old new : string) (skip : nat) (s : string) : string :=
  match s with
  | EmptyString => EmptyString
  | String c t =>
      match skip with
      | S k => replace_from old new k t
      | O =>
          if String.prefix old s
          then new ++ replace_from old new (String.length old - 1) t
          else String c (replace_from old new 0 t)
      end
  end.

Fixpoint intersperse (new s : string) : string :=
  match s with
  | EmptyString => new
  | String c t => new ++ String c (intersperse new t)
  end.

Definition replace (old new s : string) : string :=
  match old with
  | EmptyString => intersperse new s
  | _ => replace_from old new 0 s
  end.

(** [sub in s] *)
Fixpoint contains (sub s : string) : bool :=
  String.prefix sub s
  || match s with
     | EmptyString => false
     | String _ t => contains sub t
     end.

(** [c in s] for one character, and [s.split(c, 1)] at its first
    occurrence: [None] when [c] does not occur. *)
Fixpoint split_first (c : ascii) (s : string) : option (string * string) :=
  match s with
  | EmptyString => None
  | String d t =>
      if Ascii.eqb d c then Some (EmptyString, t)
      else match split_first c t with
           | Some (k, v) => Some (String d k, v)
           | None => None
           end
  end.

(** Line boundaries of [str.splitlines] among the code points below 256. *)
Definition is_linebreak (c : ascii) : bool :=
  let n := Ascii.nat_of_ascii c in
  (Nat.leb 10 n && Nat.leb n 13) || (Nat.leb 28 n && Nat.leb n 30)
  || Nat.eqb n 133.

(** [s.splitlines()]: a carriage return followed by a line feed is one
    boundary, and a final boundary opens no empty last line.  [cur] is
    the line read so far. *)
Fixpoint splitlines_from (cur : string) (s : string) : list string :=
  match s with
  | EmptyString =>
      match cur with
      | EmptyString => []
      | _ => [cur]
      end
  | String c t =>
      if is_linebreak c then
        match t with
        | String d t' =>
            if Nat.eqb (Ascii.nat_of_ascii c) 13
               && Nat.eqb (Ascii.nat_of_ascii d) 10
            then cur :: splitlines_from EmptyString t'
            else cur :: splitlines_from EmptyString t
        | EmptyString => [cur]
        end
      else splitlines_from (cur ++ String c EmptyString) t
  end.

Definition splitlines (s : string) : list string :=
  splitlines_from EmptyString s.

(** [str(n)] for a natural number. *)
Definition of_nat (n : nat) : string :=
  NilEmpty.string_of_uint (Nat.to_uint n).

End PyStr.

(** ** Dictionaries *)

(** A [dict] of strings, in insertion order. *)
Module Dict.

Definition t : Type := list (string * string).

Fixpoint get (k : string) (d : t) : option string :=
  match d with
  | [] => None
  | (k', v) :: d' => if String.eqb k' k then Some v else get k d'
  end.

(** [k in d] *)
Definition mem (k : string) (d : t) : bool :=
  match get k d with
  | Some _ => true
  | None => false
  end.

(** [d[k] = v]: an existing key keeps its place, a new key goes last. *)
Fixpoint set (k v : string) (d : t) : t :=
  match d with
  | [] => [(k, v)]
  | (k', v') :: d' =>
      if String.eqb k' k then (k', v) :: d' else (k', v') :: set k v d'
  end.

(** [d[k]] *)
Definition lookup (k : string) (d : t) : result string :=
  match get k d with
  | Some v => Ok v
  | None => Raise (KeyError k)
  end.

Definition keys (d : t) : list string := List.map fst d.

End Dict.

(** ** ColorValidator *)

Module ColorValidator.

(** [$] of the pattern: the end of the string, or a line feed that ends
    it. *)
Definition at_dollar (rest : string) : bool :=
  match rest with
  | EmptyString => true
  | String c EmptyString => Ascii.eqb c PyStr.nl
  | _ => false
  end.

(** [HEX_PATTERN.match(s)] for [^#?([0-9A-Fa-f]{6})$]: the group, when
    the string matches. *)
Definition HEX_PATTERN_match (s : string) : option string :=
  let body := match s with
              | String "#" t => t
              | _ => s
              end in
  let group := PyStr.slice 0 6 body in
  if Nat.eqb (String.length group) 6
     && PyStr.forallb PyStr.is_hex_digit group
     && at_dollar (PyStr.drop 6 body)
  then Some group else None.

(** [' in ' + context if context else ''] *)
Definition in_context (context : string) : string :=
  match context with
  | EmptyString => EmptyString
  | _ => " in " ++ context
  end.

Definition expected_format : string :=
  "Expected format: #RRGGBB or RRGGBB (e.g., #ff5f5f or ff5f5f)".

Definition validate (color context : string) : result string :=
  match color with
  | EmptyString =>
      Raise (ValueError ("Empty color value" ++ in_context context))
  | _ =>
      match HEX_PATTERN_match (PyStr.strip color) with
      | None =>
          Raise (ValueError
                   ("Invalid hex color '" ++ color ++ "'"
                    ++ in_context context
                    ++ String PyStr.nl expected_format))
      | Some group => Ok ("#" ++ PyStr.upper group)
      end
  end.

Definition is_hash (c : ascii) : bool := Ascii.eqb c "#".

Definition strip_hash (color : string) : string :=
  PyStr.lstrip_by is_hash color.

Definition to_rgba (color alpha : string) : string :=
  strip_hash color ++ alpha.

(** The default value of [alpha]. *)
Definition default_alpha : string := "FF".

End ColorValidator.

(** ** Integers in base 16 *)

Module Hex.

Definition digit_value (c : ascii) : option Z :=
  let n := Ascii.nat_of_ascii c in
  if Nat.leb 48 n && Nat.leb n 57 then Some (Z.of_nat (n - 48))
  else if Nat.leb 65 n && Nat.leb n 70 then Some (Z.of_nat (n - 55))
  else if Nat.leb 97 n && Nat.leb n 102 then Some (Z.of_nat (n - 87))
  else None.

Fixpoint parse_from (acc : Z) (s : string) : option Z :=
  match s with
  | EmptyString => Some acc
  | String c t =>
      match digit_value c with
      | Some d => parse_from (16 * acc + d) t
      | None => None
      end
  end.

(** [int(s, 16)] on a string of hexadecimal digits.  Python also reads a
    sign, surrounding blanks, a [0x] prefix and underscores between
    digits; none of them occurs in the digits of a validated colour, and
    such strings are an error here. *)
Definition int16 (s : string) : result Z :=
  match s with
  | EmptyString =>
      Raise (ValueError "invalid literal for int() with base 16: ''")
  | _ =>
      match parse_from 0 s with
      | Some z => Ok z
      | None =>
          Raise (ValueError
                   ("invalid literal for int() with base 16: '" ++ s ++ "'"))
      end
  end.

Definition lower_digit (d : Z) : ascii :=
  if (d <? 10)%Z then Ascii.ascii_of_nat (48 + Z.to_nat d)
  else Ascii.ascii_of_nat (87 + Z.to_nat d).

(** The digits of [p], least significant first, four bits at a time. *)
Fixpoint lower_digits_rev (n : nat) (z : Z) : list ascii :=
  match n with
  | O => []
  | S k =>
      if (z <? 16)%Z then [lower_digit z]
      else lower_digit (z mod 16) :: lower_digits_rev k (z / 16)
  end.

(** [format(z, 'x')] for [0 <= z]. *)
Definition lower_hex (z : Z) : string :=
  string_of_list_ascii (List.rev (lower_digits_rev (S (Z.to_nat (Z.log2 z))) z)).

(** [format(z, '02x')]: lower-case digits, filled with zeros to two
    characters, the sign of a negative number counting as one. *)
Definition format_02x (z : Z) : string :=
  if (z <? 0)%Z then "-" ++ lower_hex (- z)
  else
    let ds := lower_hex z in
    if Nat.ltb (String.length ds) 2 then "0" ++ ds else ds.

End Hex.

(** ** Floating point *)

Module PyFloat.

Local Open Scope float_scope.

(** The float of a small non-negative integer. *)
Definition of_Z (z : Z) : float :=
  if (z <? 0)%Z then - PrimFloat.of_uint63 (Uint63.of_Z (- z))
  else PrimFloat.of_uint63 (Uint63.of_Z z).

(** [int(x)]: the integer part, towards zero. *)
Definition to_int (x : float) : result Z :=
  match Prim2SF x with
  | S754_zero _ => Ok 0%Z
  | S754_finite s m e =>
      let a := Z.shiftl (Z.pos m) e in
      Ok (if s then (- a)%Z else a)
  | S754_infinity _ =>
      Raise (OverflowError "cannot convert float infinity to integer")
  | S754_nan => Raise (ValueError "cannot convert float NaN to integer")
  end.

(** [min(a, b)] and [max(a, b)]: the first argument unless the second is
    strictly smaller (larger). *)
Definition min2 (a b : float) : float := if b <? a then b else a.
Definition max2 (a b : float) : float := if a <? b then b else a.
Definition min3 (a b c : float) : float := min2 (min2 a b) c.
Definition max3 (a b c : float) : float := max2 (max2 a b) c.

(** [x % 1.0]: C's [fmod(x, 1.0)], exact, then moved into [0, 1) when
    negative; a zero remainder is [+0.0]. *)
Definition mod_one (x : float) : float :=
  match to_int x with
  | Raise _ => nan
  | Ok t =>
      let r := if abs x <? 0x1p53 then x - of_Z t else 0 in
      if r =? 0 then 0
      else if r <? 0 then r + 1
      else r
  end.

End PyFloat.

(** ** colorsys *)

(** [rgb_to_hls] and [hls_to_rgb] of Python's standard [colorsys] module,
    which the program imports. *)
Module colorsys.

Local Open Scope float_scope.

Definition ONE_THIRD : float := 1 / 3.
Definition ONE_SIXTH : float := 1 / 6.
Definition TWO_THIRD : float := 2 / 3.

Definition rgb_to_hls (r g b : float) : float * float * float :=
  let maxc := PyFloat.max3 r g b in
  let minc := PyFloat.min3 r g b in
  let sumc := maxc + minc in
  let rangec := maxc - minc in
  let l := sumc / 2 in
  if minc =? maxc then (0, l, 0)
  else
    let s := if l <=? 0.5 then rangec / sumc
             else rangec / (2 - maxc - minc) in
    let rc := (maxc - r) / rangec in
    let gc := (maxc - g) / rangec in
    let bc := (maxc - b) / rangec in
    let h := if r =? maxc then bc - gc
             else if g =? maxc then 2 + rc - bc
             else 4 + gc - rc in
    (PyFloat.mod_one (h / 6), l, s).

Definition _v (m1 m2 hue : float) : float :=
  let hue := PyFloat.mod_one hue in
  if hue <? ONE_SIXTH then m1 + (m2 - m1) * hue * 6
  else if hue <? 0.5 then m2
  else if hue <? TWO_THIRD then m1 + (m2 - m1) * (TWO_THIRD - hue) * 6
  else m1.

Definition hls_to_rgb (h l s : float) : float * float * float :=
  if s =? 0 then (l, l, l)
  else
    let m2 := if l <=? 0.5 then l * (1 + s) else l + s - l * s in
    let m1 := 2 * l - m2 in
    (_v m1 m2 (h + ONE_THIRD), _v m1 m2 h, _v m1 m2 (h - ONE_THIRD)).

End colorsys.

(** ** ColorUtils *)

Module ColorUtils.

Local Open Scope float_scope.

(** The three channels [lighten] computes, before they are written in
    base 16. *)
Definition lighten_channels (hex_color : string) (amount : float)
  : result (Z * Z * Z) :=
  let hex_clean := PyStr.lstrip_by ColorValidator.is_hash hex_color in
  let* r := Hex.int16 (PyStr.slice 0 2 hex_clean) in
  let* g := Hex.int16 (PyStr.slice 2 4 hex_clean) in
  let* b := Hex.int16 (PyStr.slice 4 6 hex_clean) in
  let '(h, l, s) :=
    colorsys.rgb_to_hls (PyFloat.of_Z r / 255) (PyFloat.of_Z g / 255)
                        (PyFloat.of_Z b / 255) in
  let l := PyFloat.min2 1 (l + amount) in
  let '(r, g, b) := colorsys.hls_to_rgb h l s in
  let* r := PyFloat.to_int (r * 255) in
  let* g := PyFloat.to_int (g * 255) in
  let* b := PyFloat.to_int (b * 255) in
  Ok (r, g, b).

Definition lighten (hex_color : string) (amount : float) : result string :=
  let* (r, g, b) := lighten_channels hex_color amount in
  Ok ("#" ++ Hex.format_02x r ++ Hex.format_02x g ++ Hex.format_02x b).

End ColorUtils.

(** ** OverrideManager *)

Module OverrideManager.

(** A path of the file system: its last component and, when the file
    exists, its text. *)
Record file : Type := { name : string; text : option string }.

(** What [read_overrides] has built so far: the mapping, and the lines it
    has printed on the diagnostic stream. *)
Definition reading : Type := (Dict.t * list string)%type.

Definition is_empty (s : string) : bool :=
  match s with
  | EmptyString => true
  | _ => false
  end.

(** The key and the value the loop of [read_overrides] takes from one
    line; [None] for the lines it passes over: blank lines, comments,
    lines without [=], and lines with nothing before or after it. *)
Definition entry_of_line (line : string) : option (string * string) :=
  let line := PyStr.strip line in
  if is_empty line || PyStr.startswith "#" line then None
  else
    match PyStr.split_first "=" line with
    | None => None
    | Some (key, value) =>
        let key := PyStr.strip key in
        let value := PyStr.strip value in
        if is_empty key || is_empty value then None
        else Some (key, value)
    end.

(** The body of the loop for one line.  [validate] raises nothing but
    [ValueError], the exception the loop catches. *)
Definition read_line (fname : string) (line_num : nat) (line : string)
           (st : reading) : reading :=
  match entry_of_line line with
  | None => st
  | Some (key, value) =>
      match ColorValidator.validate
              value (fname ++ " line " ++ PyStr.of_nat line_num) with
      | Ok value => (Dict.set key value (fst st), snd st)
      | Raise e => (fst st, List.app (snd st) ["Warning: " ++ exn_message e])
      end
  end.

(** The loop; [line_num] is the number of lines read before [lines]. *)
Fixpoint read_lines (fname : string) (line_num : nat) (lines : list string)
         (st : reading) : reading :=
  match lines with
  | [] => st
  | line :: rest =>
      read_lines fname (S line_num) rest
                 (read_line fname (S line_num) line st)
  end.

Definition read_overrides (filepath : file) : reading :=
  match text filepath with
  | None => ([], [])
  | Some content =>
      read_lines (name filepath) 0 (PyStr.splitlines content) ([], [])
  end.

Definition semantic_key (key : string) : string :=
  PyStr.lower (PyStr.replace "IDA_" "" key).

(** One turn of either loop of [apply_overrides]. *)
Definition apply_entry (result : Dict.t) (entry : string * string) : Dict.t :=
  let semantic_key := semantic_key (fst entry) in
  if Dict.mem semantic_key result
  then Dict.set semantic_key (snd entry) result
  else result.

Definition apply_mapping (overrides result : Dict.t) : Dict.t :=
  List.fold_left apply_entry overrides result.

(** [apply_overrides] on the two mappings read from the files. *)
Definition merge (defaults global_overrides per_theme_overrides : Dict.t)
  : Dict.t :=
  apply_mapping per_theme_overrides (apply_mapping global_overrides defaults).

(** [apply_overrides]: the merged mapping and the warnings printed while
    the two files were read.  The progress lines of the verbose mode are
    left out. *)
Definition apply_overrides (global_path per_theme_path : file)
           (defaults : Dict.t) : reading :=
  let result := defaults in
  let '(global_overrides, w1) := read_overrides global_path in
  let result := apply_mapping global_overrides result in
  let '(per_theme_overrides, w2) := read_overrides per_theme_path in
  let result := apply_mapping per_theme_overrides result in
  (result, List.app w1 w2).

End OverrideManager.

(** ** ThemeBuilder *)

Module ThemeBuilder.

(** The keys of [theme.json] the program reads. *)
Record theme : Type :=
  { background : string; foreground : string; colors : list string }.

(** What a build finds on disk: the two parsed JSON documents of the
    current-theme directory, the two override files, and the templates by
    file name. *)
Record disk : Type :=
  { theme_json : option theme;
    semantic_json : option Dict.t;
    global_override : OverrideManager.file;
    per_theme_override : OverrideManager.file;
    templates : string -> option string }.

(** What a build leaves behind: the lines on the diagnostic stream, the
    files written (name and text, in the order written) and how it ended. *)
Record run : Type :=
  { stderr : list string;
    written : list (string * string);
    status : result unit }.

Definition read_theme_data (d : disk) : result (theme * Dict.t) :=
  match theme_json d with
  | None => Raise (FileNotFoundError "Theme file not found: theme.json")
  | Some theme =>
      match semantic_json d with
      | None =>
          Raise (FileNotFoundError "Semantic file not found: semantic.json")
      | Some semantic => Ok (theme, semantic)
      end
  end.

(** The loop of [render_template]: one [replace] per item, in the order
    of the mapping, each on the text the one before produced. *)
Definition render (content : string) (data : Dict.t) : string :=
  List.fold_left
    (fun content item =>
       PyStr.replace ("{" ++ fst item ++ "}") (snd item) content)
    data content.

Definition render_template (d : disk) (template_name : string)
           (data : Dict.t) : result string :=
  match templates d template_name with
  | None => Raise (FileNotFoundError ("Template not found: " ++ template_name))
  | Some content => Ok (render content data)
  end.

(** [colors[i]] *)
Definition color_at (t : theme) (i : nat) : result string :=
  match List.nth_error (colors t) i with
  | Some c => Ok c
  | None => Raise (IndexError "list index out of range")
  end.

Definition fish_theme (d : disk) (t : theme) (semantic : Dict.t)
  : result string :=
  let fg := ColorValidator.strip_hash (foreground t) in
  let* urgent := Dict.lookup "urgent" semantic in
  let* color8 := color_at t 8 in
  render_template d "fish-theme.fish.tmpl"
    [("fg", fg);
     ("urgent", ColorValidator.strip_hash urgent);
     ("color8", ColorValidator.strip_hash color8)].

(** The two amounts of [generate_wofi_colors], 0.08 and 0.18, as the
    binary64 numbers nearest to them. *)
Definition amount_alt : float := 0x1.47ae147ae147bp-4%float.
Definition amount_hover : float := 0x1.70a3d70a3d70ap-3%float.

Definition wofi_colors (d : disk) (t : theme) (semantic : Dict.t)
  : result string :=
  let bg := background t in
  let* bg_alt := ColorUtils.lighten bg amount_alt in
  let* bg_hover := ColorUtils.lighten bg amount_hover in
  let* accent := Dict.lookup "accent" semantic in
  let* color5 := color_at t 5 in
  let* urgent := Dict.lookup "urgent" semantic in
  let* warning := Dict.lookup "warning" semantic in
  let* success := Dict.lookup "success" semantic in
  let* info := Dict.lookup "info" semantic in
  render_template d "wofi-colors.css.tmpl"
    [("bg", bg); ("bg_alt", bg_alt); ("bg_hover", bg_hover);
     ("fg", foreground t); ("accent", accent); ("color5", color5);
     ("urgent", urgent); ("warning", warning); ("success", success);
     ("info", info)].

Definition semantic_conf (d : disk) (semantic : Dict.t) : result string :=
  let rgba c := ColorValidator.to_rgba c ColorValidator.default_alpha in
  let* accent := Dict.lookup "accent" semantic in
  let* accent2 := Dict.lookup "accent2" semantic in
  let* warning := Dict.lookup "warning" semantic in
  let* urgent := Dict.lookup "urgent" semantic in
  render_template d "ida-semantic.conf.tmpl"
    [("accent_rgba", rgba accent); ("accent2_rgba", rgba accent2);
     ("warning_rgba", rgba warning); ("urgent_rgba", rgba urgent)].

Definition semantic_css (d : disk) (semantic : Dict.t) : result string :=
  render_template d "ida-semantic.css.tmpl" semantic.

Definition semantic_fish (d : disk) (semantic : Dict.t) : result string :=
  render_template d "ida-semantic.fish.tmpl" semantic.

(** The validation loop of [build]: every item of the mapping is visited
    once and its value replaced by what [validate] returns; the first
    failure stops the loop. *)
Fixpoint validate_items (items : Dict.t) (semantic : Dict.t)
  : result Dict.t :=
  match items with
  | [] => Ok semantic
  | (key, value) :: rest =>
      let* v := ColorValidator.validate value ("semantic." ++ key) in
      validate_items rest (Dict.set key v semantic)
  end.

Definition validate_semantic (semantic : Dict.t) : result Dict.t :=
  validate_items semantic semantic.

(** The five [generate_*] calls of [build], in their order: the name of
    the file each writes and its text. *)
Definition artifacts (d : disk) (t : theme) (semantic : Dict.t)
  : list (string * result string) :=
  [("fish-theme.fish", fish_theme d t semantic);
   ("wofi-colors.css", wofi_colors d t semantic);
   ("ida-semantic.conf", semantic_conf d semantic);
   ("ida-semantic.css", semantic_css d semantic);
   ("ida-semantic.fish", semantic_fish d semantic)].

(** Files are written one after the other; an exception leaves the ones
    already written in place. *)
Fixpoint write_all (todo : list (string * result string))
         (done : list (string * string))
  : list (string * string) * result unit :=
  match todo with
  | [] => (done, Ok tt)
  | (path, Ok content) :: rest =>
      write_all rest (List.app done [(path, content)])
  | (_, Raise e) :: _ => (done, Raise e)
  end.

Definition build (d : disk) : run :=
  match read_theme_data d with
  | Raise e => {| stderr := []; written := []; status := Raise e |}
  | Ok (t, defaults) =>
      let '(semantic, warnings) :=
        OverrideManager.apply_overrides
          (global_override d) (per_theme_override d) defaults in
      match validate_semantic semantic with
      | Raise e =>
          {| stderr := List.app warnings ["Error: " ++ exn_message e];
             written := [];
             status := Raise (SystemExit 1) |}
      | Ok semantic =>
          let '(files, st) := write_all (artifacts d t semantic) [] in
          {| stderr := warnings; written := files; status := st |}
      end
  end.

End ThemeBuilder.

(** ** main *)

Module Main.

Import ThemeBuilder.

(** [main] once the arguments are parsed: an exception of [build] is
    printed on the diagnostic stream and the process exits with status 1;
    [sys.exit] inside [build] is no [Exception] and passes through.  The
    traceback of the verbose mode is left out. *)
Definition main (d : disk) : run :=
  let r := build d in
  match status r with
  | Ok _ => r
  | Raise (SystemExit _) => r
  | Raise e =>
      {| stderr := List.app (stderr r) ["Error: " ++ exn_message e];
         written := written r;
         status := Raise (SystemExit 1) |}
  end.

(** The exit status of the process. *)
Definition exit_status (d : disk) : nat :=
  match status (main d) with
  | Ok _ => 0
  | Raise (SystemExit code) => code
  | Raise _ => 1
  end.

(** The names of the files [build] writes, in the order it writes them. *)
Definition artifact_names : list string :=
  ["fish-theme.fish"; "wofi-colors.css"; "ida-semantic.conf";
   "ida-semantic.css"; "ida-semantic.fish"].

End Main.

(** ** The properties the specification words differently

    Definitions that follow the specification's sentences, to be compared
    with the program. *)

Module Spec.

Definition six_hex_digits (s : string) : bool :=
  Nat.eqb (String.length s) 6 && PyStr.forallb PyStr.is_hex_digit s.

(** "Exactly 6 hex digits optionally preceded by a single leading marker
    character." *)
Definition plain_color (s : string) : bool :=
  six_hex_digits s
  || match s with
     | String "#" t => six_hex_digits t
     | _ => false
     end.

(** "A single leading marker followed by uppercase hex digits." *)
Definition is_upper_hex_digit (c : ascii) : bool :=
  let n := Ascii.nat_of_ascii c in
  (Nat.leb 48 n && Nat.leb n 57) || (Nat.leb 65 n && Nat.leb n 70).

Definition canonical (s : string) : bool :=
  match s with
  | String "#" t =>
      Nat.eqb (String.length t) 6 && PyStr.forallb is_upper_hex_digit t
  | _ => false
  end.

(** "Strips a fixed namespace prefix from [rawKey] (case-sensitive prefix
    match) and lower-cases the remainder." *)
Definition semantic_key (rawKey : string) : string :=
  PyStr.lower (if PyStr.startswith "IDA_" rawKey
               then PyStr.drop 4 rawKey else rawKey).

(** The value the last entry of a mapping gives to semantic key [K], if
    an entry maps to [K] (with the program's reading of raw keys). *)
Fixpoint find_override (K : string) (overrides : Dict.t) : option string :=
  match overrides with
  | [] => None
  | (rawKey, value) :: rest =>
      match find_override K rest with
      | Some v => Some v
      | None =>
          if String.eqb (OverrideManager.semantic_key rawKey) K
          then Some value else None
      end
  end.

(** "P if P is set, else G if G is set, else D." *)
Definition precedence (P G : option string) (D : string) : string :=
  match P, G with
  | Some p, _ => p
  | None, Some g => g
  | None, None => D
  end.

(** "Rounds each channel to the nearest integer": halves go away from
    zero. *)
Definition nearest (x : float) : result Z :=
  match Prim2SF x with
  | S754_zero _ => Ok 0%Z
  | S754_finite s m e =>
      let a := Z.shiftr (Z.shiftl (Z.pos m) (e + 1) + 1) 1 in
      Ok (if s then (- a)%Z else a)
  | S754_infinity _ =>
      Raise (OverflowError "cannot convert float infinity to integer")
  | S754_nan => Raise (ValueError "cannot convert float NaN to integer")
  end.

(** [lighten] as the specification words it: the same conversions, each
    channel rounded to the nearest integer, the result in upper case. *)
Definition lighten (hex_color : string) (amount : float) : result string :=
  let hex_clean := ColorValidator.strip_hash hex_color in
  let* r := Hex.int16 (PyStr.slice 0 2 hex_clean) in
  let* g := Hex.int16 (PyStr.slice 2 4 hex_clean) in
  let* b := Hex.int16 (PyStr.slice 4 6 hex_clean) in
  let '(h, l, s) :=
    colorsys.rgb_to_hls (PyFloat.of_Z r / 255)%float
                        (PyFloat.of_Z g / 255)%float
                        (PyFloat.of_Z b / 255)%float in
  let l := PyFloat.min2 1%float (l + amount)%float in
  let '(r, g, b) := colorsys.hls_to_rgb h l s in
  let* r := nearest (r * 255)%float in
  let* g := nearest (g * 255)%float in
  let* b := nearest (b * 255)%float in
  Ok ("#" ++ PyStr.upper (Hex.format_02x r ++ Hex.format_02x g
                          ++ Hex.format_02x b)).

(** The line [read_overrides] prints for a value that is not a colour,
    found on line [n] of the file named [fname]. *)
Definition invalid_warning (fname : string) (n : nat) (value : string)
  : string :=
  "Warning: Invalid hex color '" ++ value ++ "' in "
  ++ (fname ++ " line " ++ PyStr.of_nat n)
  ++ String PyStr.nl ColorValidator.expected_format.

(** What the validation loop of [build] makes of one item of the merged
    mapping. *)
Definition validated_entry (item item' : string * string) : Prop :=
  fst item' = fst item
  /\ ColorValidator.validate (snd item) ("semantic." ++ fst item)
     = Ok (snd item').

(** The canonical colour whose three channels are [v]. *)
Definition gray (v : Z) : string :=
  "#" ++ PyStr.upper (Hex.format_02x v ++ Hex.format_02x v
                      ++ Hex.format_02x v).

(** [n] marker characters. *)
Fixpoint hashes (n : nat) : string :=
  match n with
  | O => ""
  | S k => String "#" (hashes k)
  end.


End Spec.

(** ** Inputs used in the examples *)

Module Examples.

Import ThemeBuilder.

Definition no_file : OverrideManager.file :=
  {| OverrideManager.name := "overrides.conf";
     OverrideManager.text := None |}.

Definition theme0 : theme :=
  {| background := "#1E1E2E";
     foreground := "#CDD6F4";
     colors := ["#45475A"; "#F38BA8"; "#A6E3A1"; "#F9E2AF"; "#89B4FA";
                "#F5C2E7"; "#94E2D5"; "#BAC2DE"; "#585B70"; "#F38BA8";
                "#A6E3A1"; "#F9E2AF"; "#89B4FA"; "#F5C2E7"; "#94E2D5";
                "#A6ADC8"] |}.

Definition templates0 (template_name : string) : option string :=
  if String.eqb template_name "fish-theme.fish.tmpl"
  then Some "set -g fish_color_normal {fg}"
  else if String.eqb template_name "wofi-colors.css.tmpl"
  then Some "@define-color bg {bg}; @define-color bg_alt {bg_alt};"
  else if String.eqb template_name "ida-semantic.conf.tmpl"
  then Some "$accent = rgba({accent_rgba})"
  else if String.eqb template_name "ida-semantic.css.tmpl"
  then Some "@define-color accent {accent};"
  else if String.eqb template_name "ida-semantic.fish.tmpl"
  then Some "set -gx IDA_ACCENT {accent}"
  else None.

(** Semantic colours written in canonical form. *)
Definition semantic_canonical : Dict.t :=
  [("accent", "#89B4FA"); ("accent2", "#F5C2E7"); ("urgent", "#F38BA8");
   ("warning", "#F9E2AF"); ("success", "#A6E3A1"); ("info", "#94E2D5")].

(** The same colours, the accent without marker and in lower case. *)
Definition semantic_plain : Dict.t :=
  [("accent", "89b4fa"); ("accent2", "#F5C2E7"); ("urgent", "#F38BA8");
   ("warning", "#F9E2AF"); ("success", "#A6E3A1"); ("info", "#94E2D5")].

Definition disk_of (semantic : Dict.t) : disk :=
  {| theme_json := Some theme0;
     semantic_json := Some semantic;
     global_override := no_file;
     per_theme_override := no_file;
     templates := templates0 |}.

End Examples.

(** * Properties *)

(** ** Strings *)

Section StringFacts.

Lemma append_empty_r (s : string) : s ++ "" = s.
Proof. induction s; simpl; congruence. Qed.

Lemma append_assoc (a b c : string) : (a ++ b) ++ c = a ++ b ++ c.
Proof. induction a; simpl; congruence. Qed.

Lemma length_append (a b : string) :
  String.length (a ++ b) = String.length a + String.length b.
Proof. induction a; simpl; congruence. Qed.

Lemma prefix_cons (c d : ascii) (p s : string) :
  String.prefix (String c p) (String d s)
  = Ascii.eqb c d && String.prefix p s.
Proof.
  simpl. destruct (Ascii.ascii_dec c d) as [->|n].
  - now rewrite Ascii.eqb_refl.
  - destruct (Ascii.eqb_spec c d); [contradiction | reflexivity].
Qed.

Lemma prefix_empty (s : string) : String.prefix "" s = true.
Proof. now destruct s. Qed.

Lemma prefix_append (p s : string) : String.prefix p (p ++ s) = true.
Proof.
  induction p as [|c p IH]; [apply prefix_empty|].
  cbn [String.append]. now rewrite prefix_cons, Ascii.eqb_refl.
Qed.

Lemma drop_append (p s : string) : PyStr.drop (String.length p) (p ++ s) = s.
Proof. induction p; simpl; auto. Qed.

Lemma slice_drop (n : nat) (s : string) :
  PyStr.slice 0 n s ++ PyStr.drop n s = s.
Proof.
  unfold PyStr.slice. rewrite Nat.sub_0_r. revert s.
  induction n as [|n IH]; intros [|c s]; simpl; try reflexivity.
  now rewrite IH.
Qed.

Lemma forallb_map (p : ascii -> bool) (f : ascii -> ascii) (s : string) :
  PyStr.forallb p (PyStr.map f s) = PyStr.forallb (fun c => p (f c)) s.
Proof. induction s; simpl; congruence. Qed.

Lemma forallb_impl (p q : ascii -> bool) (s : string) :
  (forall c, p c = true -> q c = true) ->
  PyStr.forallb p s = true -> PyStr.forallb q s = true.
Proof.
  intros H. induction s as [|c s IH]; simpl; [easy|].
  rewrite !andb_true_iff. intros [? ?]. auto.
Qed.


Lemma length_map (f : ascii -> ascii) (s : string) :
  String.length (PyStr.map f s) = String.length s.
Proof. induction s; simpl; congruence. Qed.

(** A property of every character, checked on all 256 of them. *)
Lemma ascii_all (P : ascii -> bool) :
  List.forallb (fun n => P (Ascii.ascii_of_nat n)) (List.seq 0 256) = true ->
  forall c, P c = true.
Proof.
  intros H c. rewrite List.forallb_forall in H.
  rewrite <- (Ascii.ascii_nat_embedding c). apply H.
  apply List.in_seq. pose proof (Ascii.nat_ascii_bounded c). lia.
Qed.

End StringFacts.

(** ** ColorValidator *)

Section ColorValidatorFacts.

Import ColorValidator.

Lemma lstrip_by_not_first (p : ascii -> bool) (s : string) :
  match PyStr.lstrip_by p s with
  | EmptyString => True
  | String c _ => p c = false
  end.
Proof.
  induction s as [|c s IH]; simpl; [exact I|].
  destruct (p c) eqn:E; [exact IH | exact E].
Qed.

Lemma lstrip_by_id (p : ascii -> bool) (c : ascii) (s : string) :
  p c = false -> PyStr.lstrip_by p (String c s) = String c s.
Proof. intros H. simpl. now rewrite H. Qed.

Lemma startswith_hash (s : string) :
  PyStr.startswith "#" s
  = match s with
    | EmptyString => false
    | String c _ => is_hash c
    end.
Proof.
  destruct s as [|c s]; [reflexivity|].
  unfold PyStr.startswith. rewrite prefix_cons, prefix_empty, andb_true_r.
  unfold is_hash. apply Ascii.eqb_sym.
Qed.

Lemma strip_hash_no_hash (color : string) :
  PyStr.startswith "#" (strip_hash color) = false.
Proof.
  rewrite startswith_hash. unfold strip_hash.
  pose proof (lstrip_by_not_first is_hash color) as H.
  now destruct (PyStr.lstrip_by is_hash color).
Qed.

Lemma strip_hash_suffix (color : string) :
  exists n, color = Spec.hashes n ++ strip_hash color.
Proof.
  induction color as [|c s [n IH]]; [now exists 0|].
  unfold strip_hash in *. simpl. destruct (is_hash c) eqn:E.
  - exists (S n). simpl. unfold is_hash in E.
    apply Ascii.eqb_eq in E. subst c. now rewrite <- IH.
  - now exists 0.
Qed.

Lemma strip_hash_longest (color p t : string) :
  color = p ++ t -> PyStr.startswith "#" t = false ->
  String.length t <= String.length (strip_hash color).
Proof.
  revert p. induction color as [|c s IH]; intros p E Ht.
  - destruct p; [simpl in E; subst t; simpl; lia | discriminate].
  - unfold strip_hash in *. simpl. destruct (is_hash c) eqn:Ec.
    + destruct p as [|d p]; simpl in E.
      * subst t. rewrite startswith_hash in Ht. congruence.
      * injection E as _ E. now apply (IH p).
    + apply (f_equal String.length) in E. rewrite length_append in E.
      simpl in *. lia.
Qed.

End ColorValidatorFacts.

Section ValidateFacts.

Import ColorValidator.

(** What a successful match of the pattern says about the string. *)
Lemma HEX_PATTERN_match_some (s group : string) :
  HEX_PATTERN_match s = Some group ->
  Spec.six_hex_digits group = true
  /\ exists marker rest,
      s = marker ++ group ++ rest
      /\ (marker = "" \/ marker = "#")
      /\ (rest = "" \/ rest = String PyStr.nl "").
Proof.
  unfold HEX_PATTERN_match.
  set (body := match s with String "#" t => t | _ => s end).
  destruct (Nat.eqb (String.length (PyStr.slice 0 6 body)) 6) eqn:El;
    [|discriminate].
  destruct (PyStr.forallb PyStr.is_hex_digit (PyStr.slice 0 6 body)) eqn:Eh;
    [|discriminate].
  destruct (at_dollar (PyStr.drop 6 body)) eqn:Ed; [|discriminate].
  simpl. intros [= <-]. split.
  - unfold Spec.six_hex_digits. now rewrite El, Eh.
  - pose proof (slice_drop 6 body) as Hb. symmetry in Hb.
    assert (Hm : exists marker, s = marker ++ body
                                /\ (marker = "" \/ marker = "#")).
    { subst body. destruct s as [|c t]; [exists ""; auto|].
      destruct (Ascii.eqb_spec c "#") as [->|n].
      - exists "#". auto.
      - exists "". split; [|auto].
        destruct c as [[] [] [] [] [] [] [] []]; try reflexivity.
        now elim n. }
    destruct Hm as (marker & Hs & Hmk).
    exists marker, (PyStr.drop 6 body). repeat split; auto.
    + now rewrite <- Hb.
    + unfold at_dollar in Ed.
      destruct (PyStr.drop 6 body) as [|c [|? ?]]; auto; [|discriminate].
      apply Ascii.eqb_eq in Ed. subst c. auto.
Qed.

Lemma rstrip_by_last (p : ascii -> bool) (s a : string) (c : ascii) :
  PyStr.rstrip_by p s = a ++ String c "" -> p c = false.
Proof.
  revert a. induction s as [|d t IH]; intros a; simpl.
  - destruct a; discriminate.
  - destruct (PyStr.rstrip_by p t) as [|e r] eqn:E.
    + destruct (p d) eqn:Ed.
      * destruct a; discriminate.
      * destruct a as [|? [|? ?]]; simpl; try discriminate.
        now intros [= -> ].
    + destruct a as [|x a]; simpl.
      * discriminate.
      * intros [= _ H]. now apply (IH a).
Qed.

Lemma lstrip_by_last (p : ascii -> bool) (s a : string) (c : ascii) :
  PyStr.lstrip_by p s = a ++ String c "" ->
  exists a', s = a' ++ String c "".
Proof.
  induction s as [|d t IH]; simpl.
  - destruct a; discriminate.
  - destruct (p d).
    + intros H. destruct (IH H) as [a' ->]. now exists (String d a').
    + intros H. now exists a.
Qed.

Lemma strip_last (s a : string) (c : ascii) :
  PyStr.strip s = a ++ String c "" -> PyStr.is_space c = false.
Proof.
  unfold PyStr.strip. intros H.
  destruct (lstrip_by_last _ _ _ _ H) as [a' H'].
  now apply rstrip_by_last in H'.
Qed.

(** What [validate] returns, when it returns. *)
Lemma validate_ok (color context c : string) :
  validate color context = Ok c ->
  exists group,
    Spec.six_hex_digits group = true
    /\ c = "#" ++ PyStr.upper group
    /\ (PyStr.strip color = group \/ PyStr.strip color = "#" ++ group).
Proof.
  unfold validate. destruct color as [|x color]; [discriminate|].
  destruct (HEX_PATTERN_match (PyStr.strip (String x color))) as [g|] eqn:E;
    [|discriminate].
  intros [= <-]. exists g.
  destruct (HEX_PATTERN_match_some _ _ E) as (Hg & marker & rest & Hs & Hm & Hr).
  repeat split; auto.
  destruct Hr as [-> | ->].
  - rewrite append_empty_r in Hs. destruct Hm as [-> | ->]; auto.
  - rewrite <- append_assoc in Hs. now apply strip_last in Hs.
Qed.


(** [validate] raises nothing but [ValueError]. *)
Lemma validate_raises (color context : string) (e : exn) :
  validate color context = Raise e -> exists msg, e = ValueError msg.
Proof.
  unfold validate. destruct color; [intros [= <-]; eauto|].
  destruct (HEX_PATTERN_match _); [discriminate|]. intros [= <-]. eauto.
Qed.

(** Whether [validate] returns, and what, does not depend on the
    context. *)
Lemma validate_context (color c1 c2 : string) :
  match validate color c1, validate color c2 with
  | Ok a, Ok b => a = b
  | Raise _, Raise _ => True
  | _, _ => False
  end.
Proof.
  unfold validate. destruct color; [exact I|].
  now destruct (HEX_PATTERN_match _).
Qed.

Lemma upper_hex_char (c : ascii) :
  implb (PyStr.is_hex_digit c)
        (Spec.is_upper_hex_digit (PyStr.upper_char c)
         && negb (is_hash (PyStr.upper_char c))) = true.
Proof. revert c. apply ascii_all. vm_compute. reflexivity. Qed.

Lemma upper_hex_digit_not_hash (c : ascii) :
  Spec.is_upper_hex_digit c = true -> is_hash c = false.
Proof.
  assert (H : forall c, implb (Spec.is_upper_hex_digit c) (negb (is_hash c)) = true)
    by (apply ascii_all; vm_compute; reflexivity).
  specialize (H c). destruct (Spec.is_upper_hex_digit c); [|discriminate].
  intros _. simpl in H. now destruct (is_hash c).
Qed.

(** A validated colour is in canonical form. *)
Lemma validate_canonical (color context c : string) :
  validate color context = Ok c -> Spec.canonical c = true.
Proof.
  intros H. destruct (validate_ok _ _ _ H) as (g & Hg & -> & _).
  unfold Spec.six_hex_digits in Hg. apply andb_true_iff in Hg as [Hl Hh].
  cbn [String.append Spec.canonical].
  unfold PyStr.upper. rewrite length_map, Hl, forallb_map. simpl.
  revert Hh. apply forallb_impl. intros ch Hc.
  pose proof (upper_hex_char ch) as U. rewrite Hc in U. simpl in U.
  now apply andb_true_iff in U as [U _].
Qed.

Lemma strip_hash_canonical (c : string) :
  Spec.canonical c = true ->
  exists digits,
    c = String "#" digits /\ strip_hash c = digits
    /\ String.length digits = 6
    /\ PyStr.forallb Spec.is_upper_hex_digit digits = true
    /\ strip_hash digits = digits.
Proof.
  destruct c as [|x digits]; [discriminate|].
  simpl. destruct (Ascii.eqb_spec x "#") as [->|n].
  2:{ destruct x as [[] [] [] [] [] [] [] []]; try discriminate. now elim n. }
  intros H. apply andb_true_iff in H as [Hl Hh]. apply Nat.eqb_eq in Hl.
  exists digits. assert (Hd : strip_hash digits = digits).
  { destruct digits as [|d ds]; [reflexivity|]. simpl in Hh.
    apply andb_true_iff in Hh as [Hd _].
    apply lstrip_by_id. now apply upper_hex_digit_not_hash. }
  repeat split; auto.
Qed.

End ValidateFacts.

(** ** Claims on ColorValidator *)

(** C10. [strip_hash] returns for every string: it removes all the leading
    marker characters and nothing else, so what it returns is the longest
    suffix of the string that does not start with the marker. *)
Theorem strip_hash_longest_suffix (color : string) :
  (exists n, color = Spec.hashes n ++ ColorValidator.strip_hash color)
  /\ PyStr.startswith "#" (ColorValidator.strip_hash color) = false
  /\ (forall p t,
        color = p ++ t -> PyStr.startswith "#" t = false ->
        String.length t <= String.length (ColorValidator.strip_hash color))
  /\ (PyStr.startswith "#" color = false ->
      ColorValidator.strip_hash color = color)
  /\ ColorValidator.strip_hash "##AABBCC" = "AABBCC".
Proof.
  repeat split.
  - apply strip_hash_suffix.
  - apply strip_hash_no_hash.
  - apply strip_hash_longest.
  - rewrite startswith_hash. destruct color as [|c s]; [reflexivity|].
    apply lstrip_by_id.
Qed.

(** C9, counterexample.  A string with blanks around six hex digits is not
    six hex digits with an optional marker, and [validate] accepts it. *)
Lemma validate_accepts_padded_color :
  Spec.plain_color " aabbcc " = false
  /\ ColorValidator.validate " aabbcc " "" = Ok "#AABBCC".
Proof. split; reflexivity. Qed.

(** C9, as amended.  [validate] raises [ValueError] for every string that,
    once the blanks around it are removed, is not exactly six hex digits
    with one optional marker before them. *)
Theorem validate_rejects (color context : string) :
  Spec.plain_color (PyStr.strip color) = false ->
  exists msg, ColorValidator.validate color context = Raise (ValueError msg).
Proof.
  intros H. destruct (ColorValidator.validate color context) as [c|e] eqn:E.
  - exfalso. destruct (validate_ok _ _ _ E) as (g & Hg & _ & [Hs | Hs]);
      rewrite Hs in H; unfold Spec.plain_color in H.
    + now rewrite Hg in H.
    + cbn [String.append] in H. rewrite Hg in H.
      now rewrite orb_true_r in H.
  - destruct (validate_raises _ _ _ E) as [msg ->]. now exists msg.
Qed.

Lemma validate_rejects_witness :
  exists msg, ColorValidator.validate "IDA#zz" "semantic.accent"
              = Raise (ValueError msg).
Proof. apply validate_rejects. reflexivity. Defined.

(** C1, counterexample.  For the validated colour [#AABBCC] the
    composition returns eight characters, not the six digits. *)
Lemma strip_to_rgba_strip_is_not_the_digits :
  ColorValidator.validate "#aabbcc" "" = Ok "#AABBCC"
  /\ ColorValidator.strip_hash
       (ColorValidator.to_rgba (ColorValidator.strip_hash "#AABBCC")
                               ColorValidator.default_alpha)
     = "AABBCCFF"
  /\ "AABBCCFF" <> ColorValidator.strip_hash "#AABBCC".
Proof. repeat split. discriminate. Qed.

(** C1, as amended.  For every validated colour [c],
    [strip_hash (to_rgba (strip_hash c))] is the six digits of [c] followed
    by the alpha suffix [FF]: eight characters, of which the first six are
    the digits of [c]. *)
Theorem strip_to_rgba_strip (color context c : string) :
  ColorValidator.validate color context = Ok c ->
  let digits := ColorValidator.strip_hash c in
  let out := ColorValidator.strip_hash
               (ColorValidator.to_rgba digits ColorValidator.default_alpha) in
  c = "#" ++ digits
  /\ String.length digits = 6
  /\ out = digits ++ "FF"
  /\ String.length out = 8
  /\ PyStr.slice 0 6 out = digits.
Proof.
  intros H. apply validate_canonical in H.
  destruct (strip_hash_canonical _ H) as (digits & -> & Hs & Hl & Hh & Hd).
  cbv zeta. rewrite Hs. unfold ColorValidator.to_rgba. rewrite Hd.
  assert (Ho : ColorValidator.strip_hash (digits ++ ColorValidator.default_alpha)
               = digits ++ "FF").
  { destruct digits as [|d ds]; [discriminate|]. simpl in Hh.
    apply andb_true_iff in Hh as [Hd' _]. cbn [String.append].
    apply lstrip_by_id. now apply upper_hex_digit_not_hash. }
  rewrite Ho. repeat split; auto.
  - rewrite length_append, Hl. reflexivity.
  - do 7 (destruct digits as [|? digits]; try discriminate). reflexivity.
Qed.

Lemma strip_to_rgba_strip_witness :
  ColorValidator.strip_hash
    (ColorValidator.to_rgba (ColorValidator.strip_hash "#89B4FA")
                            ColorValidator.default_alpha)
  = "89B4FA" ++ "FF".
Proof.
  exact (proj1 (proj2 (proj2
           (strip_to_rgba_strip "89b4fa" "semantic.accent" "#89B4FA" eq_refl)))).
Defined.

(** ** Dictionaries *)

Section DictFacts.

Lemma get_set_same (k v : string) (d : Dict.t) :
  Dict.get k (Dict.set k v d) = Some v.
Proof.
  induction d as [|[k' v'] d IH]; simpl.
  - now rewrite String.eqb_refl.
  - destruct (String.eqb k' k) eqn:E; simpl; now rewrite E.
Qed.

Lemma get_set_other (k k' v : string) (d : Dict.t) :
  k <> k' -> Dict.get k' (Dict.set k v d) = Dict.get k' d.
Proof.
  intros N. induction d as [|[k0 v0] d IH]; simpl.
  - destruct (String.eqb_spec k k'); [contradiction | reflexivity].
  - destruct (String.eqb_spec k0 k) as [->|Nk]; simpl.
    + destruct (String.eqb_spec k k'); [contradiction | reflexivity].
    + now rewrite IH.
Qed.

Lemma keys_set (k v : string) (d : Dict.t) :
  Dict.mem k d = true -> Dict.keys (Dict.set k v d) = Dict.keys d.
Proof.
  unfold Dict.mem. induction d as [|[k' v'] d IH]; simpl; [discriminate|].
  destruct (String.eqb k' k); simpl; [reflexivity|].
  intros H. now rewrite IH.
Qed.

Lemma mem_keys (k : string) (d : Dict.t) :
  Dict.mem k d = true <-> In k (Dict.keys d).
Proof.
  unfold Dict.mem. induction d as [|[k' v'] d IH]; simpl; [easy|].
  destruct (String.eqb_spec k' k) as [->|N]; [tauto|].
  rewrite IH. split; [tauto | intros [?|?]; [contradiction | assumption]].
Qed.

Lemma mem_same_keys (k : string) (d d' : Dict.t) :
  Dict.keys d = Dict.keys d' -> Dict.mem k d = Dict.mem k d'.
Proof.
  intros H. destruct (Dict.mem k d) eqn:E, (Dict.mem k d') eqn:E';
    try reflexivity.
  - apply mem_keys in E. rewrite H in E. apply mem_keys in E. congruence.
  - apply mem_keys in E'. rewrite <- H in E'. apply mem_keys in E'.
    congruence.
Qed.


End DictFacts.

(** ** OverrideManager: merging *)

Section MergeFacts.

Import OverrideManager.

Lemma apply_entry_keys (d : Dict.t) (e : string * string) :
  Dict.keys (apply_entry d e) = Dict.keys d.
Proof.
  unfold apply_entry. destruct (Dict.mem _ d) eqn:E; [|reflexivity].
  now apply keys_set.
Qed.

Lemma apply_mapping_keys (overrides d : Dict.t) :
  Dict.keys (apply_mapping overrides d) = Dict.keys d.
Proof.
  unfold apply_mapping. revert d.
  induction overrides as [|e rest IH]; intros d; simpl; [reflexivity|].
  now rewrite IH, apply_entry_keys.
Qed.

(** No key is ever added, and the keys keep their order. *)
Lemma merge_keys (defaults G P : Dict.t) :
  Dict.keys (merge defaults G P) = Dict.keys defaults.
Proof. unfold merge. now rewrite !apply_mapping_keys. Qed.

Lemma get_apply_entry (K D : string) (d : Dict.t) (e : string * string) :
  Dict.get K d = Some D ->
  Dict.get K (apply_entry d e)
  = Some (if String.eqb (semantic_key (fst e)) K then snd e else D).
Proof.
  intros H. unfold apply_entry.
  destruct (String.eqb_spec (semantic_key (fst e)) K) as [->|N].
  - unfold Dict.mem. rewrite H. apply get_set_same.
  - destruct (Dict.mem _ d); [|assumption].
    now rewrite get_set_other.
Qed.

Lemma get_apply_mapping (K : string) (overrides : Dict.t) :
  forall (d : Dict.t) (D : string),
    Dict.get K d = Some D ->
    Dict.get K (apply_mapping overrides d)
    = Some (match Spec.find_override K overrides with
            | Some v => v
            | None => D
            end).
Proof.
  unfold apply_mapping.
  induction overrides as [|[rk v] rest IH]; intros d D H; simpl;
    [assumption|].
  rewrite (IH _ _ (get_apply_entry K D d (rk, v) H)). simpl.
  destruct (Spec.find_override K rest); [reflexivity|].
  now destruct (String.eqb (semantic_key rk) K).
Qed.

Lemma get_merge (K D : string) (defaults G P : Dict.t) :
  Dict.get K defaults = Some D ->
  Dict.get K (merge defaults G P)
  = Some (Spec.precedence (Spec.find_override K P)
                          (Spec.find_override K G) D).
Proof.
  intros H. unfold merge.
  rewrite (get_apply_mapping K P _ _ (get_apply_mapping K G _ _ H)).
  unfold Spec.precedence.
  now destruct (Spec.find_override K P), (Spec.find_override K G).
Qed.

Lemma apply_overrides_merge (g p : file) (defaults : Dict.t) :
  fst (apply_overrides g p defaults)
  = merge defaults (fst (read_overrides g)) (fst (read_overrides p)).
Proof.
  unfold apply_overrides, merge.
  now destruct (read_overrides g), (read_overrides p).
Qed.

End MergeFacts.

(** C5.  For a key [K] of the defaults with value [D], the merged value is
    the per-theme override for [K] when an entry of the per-theme mapping
    maps to [K], else the global override when an entry of the global
    mapping maps to [K], else [D] (of several entries of one mapping that
    map to [K], the last one counts).  With default [accent=#112233], the
    global line [IDA_ACCENT=445566] and no per-theme file, [accent] is
    [#445566]. *)
Theorem apply_overrides_precedence
        (g p : OverrideManager.file) (defaults : Dict.t) (K D : string) :
  Dict.get K defaults = Some D ->
  Dict.get K (fst (OverrideManager.apply_overrides g p defaults))
  = Some (Spec.precedence
            (Spec.find_override K (fst (OverrideManager.read_overrides p)))
            (Spec.find_override K (fst (OverrideManager.read_overrides g)))
            D)
  /\ Dict.get "accent"
       (fst (OverrideManager.apply_overrides
               {| OverrideManager.name := "overrides.conf";
                  OverrideManager.text := Some "IDA_ACCENT=445566" |}
               {| OverrideManager.name := "overrides.conf";
                  OverrideManager.text := None |}
               [("accent", "#112233")]))
     = Some "#445566".
Proof.
  intros H. split; [|reflexivity].
  rewrite apply_overrides_merge. now apply get_merge.
Qed.

Lemma apply_overrides_precedence_witness :
  Dict.get "urgent"
    (fst (OverrideManager.apply_overrides
            {| OverrideManager.name := "overrides.conf";
               OverrideManager.text :=
                 Some ("IDA_URGENT=ff0000" ++ String PyStr.nl "IDA_ACCENT=445566") |}
            {| OverrideManager.name := "overrides.conf";
               OverrideManager.text := Some "IDA_URGENT = #00ff00" |}
            [("accent", "#112233"); ("urgent", "#AA0000")]))
  = Some "#00FF00".
Proof.
  exact (proj1 (apply_overrides_precedence _ _
                  [("accent", "#112233"); ("urgent", "#AA0000")]
                  "urgent" "#AA0000" eq_refl)).
Defined.

(** C6, the input on which the program departs from the claim.  The raw
    key [IDA_IDA_X] should name the semantic key [ida_x] (prefix removed
    once); the program removes every [IDA_], looks for [x], and passes the
    override file line [IDA_IDA_X=222222] over.  In the same way the key
    [FOO_IDA_BAR], which has no prefix to strip, overrides [foo_bar]. *)
Theorem semantic_key_removes_every_IDA :
  OverrideManager.semantic_key "IDA_IDA_X" = "x"
  /\ Spec.semantic_key "IDA_IDA_X" = "ida_x"
  /\ OverrideManager.apply_overrides
       {| OverrideManager.name := "overrides.conf";
          OverrideManager.text := Some "IDA_IDA_X=222222" |}
       {| OverrideManager.name := "overrides.conf";
          OverrideManager.text := None |}
       [("ida_x", "#111111")]
     = ([("ida_x", "#111111")], [])
  /\ OverrideManager.semantic_key "FOO_IDA_BAR" = "foo_bar"
  /\ Spec.semantic_key "FOO_IDA_BAR" = "foo_ida_bar"
  /\ OverrideManager.apply_overrides
       {| OverrideManager.name := "overrides.conf";
          OverrideManager.text := Some "FOO_IDA_BAR=222222" |}
       {| OverrideManager.name := "overrides.conf";
          OverrideManager.text := None |}
       [("foo_bar", "#111111")]
     = ([("foo_bar", "#222222")], []).
Proof. repeat split. Qed.

(** ** OverrideManager: reading *)

Section ReadFacts.

Import OverrideManager.

Lemma read_lines_app (fname : string) (a b : list string) :
  forall (n : nat) (st : reading),
    read_lines fname n (a ++ b)%list st
    = read_lines fname (n + List.length a) b (read_lines fname n a st).
Proof.
  induction a as [|l a IH]; intros n st; simpl.
  - now rewrite Nat.add_0_r.
  - rewrite IH. f_equal. lia.
Qed.





Lemma entry_of_line_nonempty (line key value : string) :
  entry_of_line line = Some (key, value) -> key <> "" /\ value <> "".
Proof.
  unfold entry_of_line.
  destruct (is_empty (PyStr.strip line) || _); [discriminate|].
  destruct (PyStr.split_first _ _) as [[k v]|]; [|discriminate].
  destruct (is_empty (PyStr.strip k)) eqn:Ek; [discriminate|].
  destruct (is_empty (PyStr.strip v)) eqn:Ev; [discriminate|].
  simpl. intros [= <- <-]. split; intros E; rewrite E in *; discriminate.
Qed.




End ReadFacts.

Section MergeUnchanged.

Import OverrideManager.



End MergeUnchanged.



(** The line [IDA_FOO=zzzzzz] alone: one warning and an empty mapping; a
    default [foo] keeps its value, and without it [foo] stays absent. *)
Example invalid_override_line :
  let f := {| OverrideManager.name := "overrides.conf";
              OverrideManager.text := Some "IDA_FOO=zzzzzz" |} in
  let none := {| OverrideManager.name := "overrides.conf";
                 OverrideManager.text := None |} in
  OverrideManager.read_overrides f
  = ([], [Spec.invalid_warning "overrides.conf" 1 "zzzzzz"])
  /\ fst (OverrideManager.apply_overrides f none [("foo", "#112233")])
     = [("foo", "#112233")]
  /\ fst (OverrideManager.apply_overrides none f [("accent", "#112233")])
     = [("accent", "#112233")].
Proof. repeat split. Qed.

(** ** ThemeBuilder: rendering *)

Section RenderFacts.

Lemma replace_from_skip (old new o rest : string) :
  PyStr.replace_from old new (String.length o) (o ++ rest)
  = PyStr.replace_from old new 0 rest.
Proof. induction o as [|c o IH]; simpl; [reflexivity | exact IH]. Qed.

(** One replacement copies the new text and goes on after the occurrence:
    the text it has put in is not read again. *)
Lemma replace_at_occurrence (old new rest : string) :
  old <> "" ->
  PyStr.replace old new (old ++ rest) = new ++ PyStr.replace old new rest.
Proof.
  destruct old as [|c o]; [easy|]. intros _.
  unfold PyStr.replace. cbn [String.append].
  cbn [PyStr.replace_from].
  replace (String.prefix (String c o) (String c (o ++ rest))) with true
    by (symmetry; apply (prefix_append (String c o) rest)).
  cbn [String.length].
  replace (S (String.length o) - 1) with (String.length o) by lia.
  now rewrite replace_from_skip.
Qed.

Lemma replace_elsewhere (old new : string) (c : ascii) (rest : string) :
  old <> "" -> String.prefix old (String c rest) = false ->
  PyStr.replace old new (String c rest)
  = String c (PyStr.replace old new rest).
Proof.
  destruct old as [|d o]; [easy|]. intros _ H.
  unfold PyStr.replace. cbn [PyStr.replace_from]. now rewrite H.
Qed.

Lemma render_snoc (content : string) (data : Dict.t) (key value : string) :
  ThemeBuilder.render content (data ++ [(key, value)])%list
  = PyStr.replace ("{" ++ key ++ "}") value
                  (ThemeBuilder.render content data).
Proof. unfold ThemeBuilder.render. now rewrite List.fold_left_app. Qed.

End RenderFacts.

(** C2, counterexample.  The value of [a] holds the placeholder of [b],
    which comes later in the mapping: the occurrence does not stay in the
    output, it is replaced by the value of [b]. *)
Lemma render_rescans_substituted_value :
  PyStr.contains "{b}" "{b}" = true
  /\ ThemeBuilder.render "{a}" [("a", "{b}"); ("b", "X")] = "X"
  /\ PyStr.contains "{b}" (ThemeBuilder.render "{a}" [("a", "{b}"); ("b", "X")])
     = false.
Proof. repeat split. Qed.

(** C2, as amended.  [render] makes the replacements of the keys one after
    the other, in the order of the mapping, each over the whole text the
    ones before it have produced.  One replacement is a single pass from
    the left which copies the value as it is and goes on behind the
    placeholder, so a value is never read again for its own key or for a
    key that came before it; it is read again for the keys that come after
    it.  The template [{a}] with [a = {b}] and [b = X] gives [X] when [a]
    comes first and [{b}] when [b] comes first. *)
Theorem render_is_sequential
        (content : string) (data : Dict.t) (key value : string) :
  ThemeBuilder.render content [] = content
  /\ ThemeBuilder.render content (data ++ [(key, value)])%list
     = PyStr.replace ("{" ++ key ++ "}") value
                     (ThemeBuilder.render content data)
  /\ PyStr.replace ("{" ++ key ++ "}") value "" = ""
  /\ (forall rest,
        PyStr.replace ("{" ++ key ++ "}") value (("{" ++ key ++ "}") ++ rest)
        = value ++ PyStr.replace ("{" ++ key ++ "}") value rest)
  /\ (forall c rest,
        String.prefix ("{" ++ key ++ "}") (String c rest) = false ->
        PyStr.replace ("{" ++ key ++ "}") value (String c rest)
        = String c (PyStr.replace ("{" ++ key ++ "}") value rest))
  /\ ThemeBuilder.render "{a}" [("a", "{b}"); ("b", "X")] = "X"
  /\ ThemeBuilder.render "{a}" [("b", "X"); ("a", "{b}")] = "{b}".
Proof.
  repeat split.
  - apply render_snoc.
  - intros rest. now apply replace_at_occurrence.
  - intros c rest. now apply replace_elsewhere.
Qed.

(** ** ThemeBuilder: the validation stage *)

Section ValidateStage.

Import ThemeBuilder.

Lemma keys_app (a b : Dict.t) :
  Dict.keys (a ++ b)%list = (Dict.keys a ++ Dict.keys b)%list.
Proof. apply List.map_app. Qed.

Lemma set_middle (k v old : string) (pre rest : Dict.t) :
  ~ In k (Dict.keys pre) ->
  Dict.set k v (pre ++ (k, old) :: rest)%list = (pre ++ (k, v) :: rest)%list.
Proof.
  induction pre as [|[k' v'] pre IH]; simpl; intros N.
  - now rewrite String.eqb_refl.
  - destruct (String.eqb_spec k' k) as [->|_]; [elim N; auto|].
    rewrite IH; auto.
Qed.

Lemma validate_items_from (items : Dict.t) :
  forall (pre semantic : Dict.t),
    NoDup (Dict.keys (pre ++ items)%list) ->
    validate_items items (pre ++ items)%list = Ok semantic ->
    exists items',
      semantic = (pre ++ items')%list
      /\ Forall2 Spec.validated_entry items items'.
Proof.
  induction items as [|[k v] rest IH]; intros pre semantic ND H.
  - simpl in H. injection H as <-. exists []. split; [reflexivity|constructor].
  - cbn [validate_items] in H.
    destruct (ColorValidator.validate v ("semantic." ++ k)) as [v'|e] eqn:Ev;
      [|discriminate].
    cbn [bind] in H.
    assert (Nk : ~ In k (Dict.keys pre)).
    { rewrite keys_app in ND. simpl in ND. apply List.NoDup_remove_2 in ND.
      intros Hin. apply ND. apply List.in_or_app. auto. }
    rewrite (set_middle k v' v pre rest Nk) in H.
    replace (pre ++ (k, v') :: rest)%list
      with ((pre ++ [(k, v')]) ++ rest)%list in H
      by now rewrite <- List.app_assoc.
    apply IH in H as (items' & -> & HF).
    + exists ((k, v') :: items'). split.
      * now rewrite <- List.app_assoc.
      * constructor; [split; [reflexivity | exact Ev] | exact HF].
    + rewrite !keys_app in *. simpl in *. now rewrite <- List.app_assoc.
Qed.

(** The validation loop keeps the keys and their order and replaces each
    value by what [validate] returns for it. *)
Lemma validate_semantic_ok (merged semantic : Dict.t) :
  NoDup (Dict.keys merged) ->
  validate_semantic merged = Ok semantic ->
  Forall2 Spec.validated_entry merged semantic.
Proof.
  intros ND H. apply (validate_items_from merged []) in H as (items' & -> & HF);
    assumption.
Qed.

Lemma rstrip_by_none (p : ascii -> bool) (s : string) :
  PyStr.forallb (fun c => negb (p c)) s = true -> PyStr.rstrip_by p s = s.
Proof.
  induction s as [|c s IH]; simpl; [reflexivity|].
  intros H. apply andb_true_iff in H as [Hc Hs]. rewrite (IH Hs).
  destruct s; [|reflexivity]. now destruct (p c).
Qed.

Lemma lstrip_by_none (p : ascii -> bool) (s : string) :
  PyStr.forallb (fun c => negb (p c)) s = true -> PyStr.lstrip_by p s = s.
Proof.
  destruct s as [|c s]; simpl; [reflexivity|].
  intros H. apply andb_true_iff in H as [Hc _]. now destruct (p c).
Qed.

Lemma upper_hex_char_facts (c : ascii) :
  implb (Spec.is_upper_hex_digit c)
        (PyStr.is_hex_digit c && negb (PyStr.is_space c)
         && Ascii.eqb (PyStr.upper_char c) c) = true.
Proof. revert c. apply ascii_all. vm_compute. reflexivity. Qed.

Lemma upper_hex_forall (q : ascii -> bool) (s : string) :
  (forall c, implb (Spec.is_upper_hex_digit c) (q c) = true) ->
  PyStr.forallb Spec.is_upper_hex_digit s = true ->
  PyStr.forallb q s = true.
Proof.
  intros H. apply forallb_impl. intros c Hc.
  specialize (H c). now rewrite Hc in H.
Qed.

Lemma upper_fixed (s : string) :
  PyStr.forallb (fun c => Ascii.eqb (PyStr.upper_char c) c) s = true ->
  PyStr.upper s = s.
Proof.
  unfold PyStr.upper. induction s as [|c s IH]; simpl; [reflexivity|].
  intros H. apply andb_true_iff in H as [Hc Hs].
  apply Ascii.eqb_eq in Hc. now rewrite Hc, IH.
Qed.

(** [validate] returns a canonical colour as it is. *)
Lemma validate_canonical_id (c context : string) :
  Spec.canonical c = true -> ColorValidator.validate c context = Ok c.
Proof.
  intros H. destruct (strip_hash_canonical c H) as (ds & -> & _ & Hl & Hu & _).
  assert (Hhex : PyStr.forallb PyStr.is_hex_digit ds = true).
  { apply (upper_hex_forall _ ds); [|exact Hu]. intros ch.
    pose proof (upper_hex_char_facts ch) as F.
    destruct (Spec.is_upper_hex_digit ch); [|reflexivity].
    simpl in *. now destruct (PyStr.is_hex_digit ch). }
  assert (Hsp : PyStr.forallb (fun ch => negb (PyStr.is_space ch)) ds = true).
  { apply (upper_hex_forall _ ds); [|exact Hu]. intros ch.
    pose proof (upper_hex_char_facts ch) as F.
    destruct (Spec.is_upper_hex_digit ch); [|reflexivity].
    simpl in *. destruct (PyStr.is_hex_digit ch); [|discriminate].
    now destruct (PyStr.is_space ch). }
  assert (Hup : PyStr.upper ds = ds).
  { apply upper_fixed. apply (upper_hex_forall _ ds); [|exact Hu]. intros ch.
    pose proof (upper_hex_char_facts ch) as F.
    destruct (Spec.is_upper_hex_digit ch); [|reflexivity].
    simpl in *. destruct (PyStr.is_hex_digit ch); [|discriminate].
    now destruct (PyStr.is_space ch). }
  unfold ColorValidator.validate.
  assert (Hs : PyStr.strip (String "#" ds) = String "#" ds).
  { unfold PyStr.strip. rewrite rstrip_by_none by (simpl; exact Hsp).
    apply lstrip_by_none. simpl. exact Hsp. }
  rewrite Hs. unfold ColorValidator.HEX_PATTERN_match.
  pose proof (slice_drop 6 ds) as Hsd.
  assert (Hd : PyStr.drop 6 ds = "").
  { clear - Hl. do 6 (destruct ds as [|? ds]; [discriminate|]).
    destruct ds; [reflexivity | discriminate]. }
  rewrite Hd, append_empty_r in Hsd. rewrite Hsd, Hd, Hl, Hhex. simpl.
  now rewrite Hup.
Qed.

Lemma validated_canonical_same (merged semantic : Dict.t) :
  Forall2 Spec.validated_entry merged semantic ->
  Forall (fun item => Spec.canonical (snd item) = true) merged ->
  semantic = merged.
Proof.
  induction 1 as [|[k v] [k' v'] merged semantic [Hk Hv] _ IH]; intros HF;
    [reflexivity|].
  inversion HF as [|? ? Hc HF']; subst. simpl in *.
  rewrite (validate_canonical_id v _ Hc) in Hv. injection Hv as <-.
  subst k'. now rewrite IH.
Qed.

Lemma render_template_ok (d : disk) (template_name content : string)
      (data : Dict.t) :
  render_template d template_name data = Ok content ->
  exists template,
    templates d template_name = Some template
    /\ content = render template data.
Proof.
  unfold render_template. destruct (templates d template_name) as [t|];
    [|discriminate].
  intros [= <-]. now exists t.
Qed.

End ValidateStage.

(** C4, counterexample.  The default accent is written [89b4fa]; no
    override file exists, so this is the merged value.  The semantic
    stylesheet and the shell-variables file are rendered with [#89B4FA],
    the value the validation stage has put in its place, and differ from
    what the merged value would give. *)
Lemma semantic_artifacts_not_rendered_from_merged_values :
  let d := Examples.disk_of Examples.semantic_plain in
  let merged :=
    fst (OverrideManager.apply_overrides
           (ThemeBuilder.global_override d) (ThemeBuilder.per_theme_override d)
           Examples.semantic_plain) in
  Dict.get "accent" merged = Some "89b4fa"
  /\ ThemeBuilder.status (ThemeBuilder.build d) = Ok tt
  /\ In ("ida-semantic.css", "@define-color accent #89B4FA;")
        (ThemeBuilder.written (ThemeBuilder.build d))
  /\ In ("ida-semantic.fish", "set -gx IDA_ACCENT #89B4FA")
        (ThemeBuilder.written (ThemeBuilder.build d))
  /\ ThemeBuilder.render "@define-color accent {accent};" merged
     = "@define-color accent 89b4fa;"
  /\ ThemeBuilder.validate_semantic merged <> Ok merged.
Proof.
  cbv zeta.
  split; [vm_compute; reflexivity|].
  split; [vm_compute; reflexivity|].
  split; [vm_compute; auto 10|].
  split; [vm_compute; auto 10|].
  split; [vm_compute; reflexivity|].
  vm_compute. discriminate.
Qed.

(** C4, as amended.  In a build that succeeds, the semantic stylesheet and
    the semantic shell-variables file are rendered from the mapping the
    validation stage leaves: it has the keys of the merged mapping, in
    their order, and for each key the value [validate] returns for the
    merged value (marker, digits in upper case).  It is the merged mapping
    itself when every merged value is already in canonical form. *)
Theorem semantic_artifacts_use_validated_values
        (d : ThemeBuilder.disk) (t : ThemeBuilder.theme) (defaults : Dict.t) :
  ThemeBuilder.read_theme_data d = Ok (t, defaults) ->
  NoDup (Dict.keys defaults) ->
  ThemeBuilder.status (ThemeBuilder.build d) = Ok tt ->
  let merged :=
    fst (OverrideManager.apply_overrides
           (ThemeBuilder.global_override d) (ThemeBuilder.per_theme_override d)
           defaults) in
  exists semantic css_template fish_template,
    ThemeBuilder.validate_semantic merged = Ok semantic
    /\ Forall2 Spec.validated_entry merged semantic
    /\ ThemeBuilder.templates d "ida-semantic.css.tmpl" = Some css_template
    /\ ThemeBuilder.templates d "ida-semantic.fish.tmpl" = Some fish_template
    /\ In ("ida-semantic.css", ThemeBuilder.render css_template semantic)
          (ThemeBuilder.written (ThemeBuilder.build d))
    /\ In ("ida-semantic.fish", ThemeBuilder.render fish_template semantic)
          (ThemeBuilder.written (ThemeBuilder.build d))
    /\ (Forall (fun item => Spec.canonical (snd item) = true) merged ->
        semantic = merged).
Proof.
  intros Hr ND Hs. cbv zeta.
  assert (NDm : NoDup (Dict.keys
                         (fst (OverrideManager.apply_overrides
                                 (ThemeBuilder.global_override d)
                                 (ThemeBuilder.per_theme_override d) defaults))))
    by now rewrite apply_overrides_merge, merge_keys.
  unfold ThemeBuilder.build in *. rewrite Hr in *.
  destruct (OverrideManager.apply_overrides _ _ defaults) as [merged warnings].
  cbn [fst] in *.
  destruct (ThemeBuilder.validate_semantic merged) as [semantic|e] eqn:Ev;
    [|discriminate].
  pose proof (validate_semantic_ok _ _ NDm Ev) as HF.
  unfold ThemeBuilder.artifacts in *. cbn [ThemeBuilder.write_all] in *.
  destruct (ThemeBuilder.fish_theme d t semantic); [|discriminate].
  cbn [ThemeBuilder.write_all] in *.
  destruct (ThemeBuilder.wofi_colors d t semantic); [|discriminate].
  cbn [ThemeBuilder.write_all] in *.
  destruct (ThemeBuilder.semantic_conf d semantic); [|discriminate].
  cbn [ThemeBuilder.write_all] in *.
  destruct (ThemeBuilder.semantic_css d semantic) as [css|] eqn:Ec;
    [|discriminate].
  cbn [ThemeBuilder.write_all] in *.
  destruct (ThemeBuilder.semantic_fish d semantic) as [fish|] eqn:Ef;
    [|discriminate].
  cbn [ThemeBuilder.write_all ThemeBuilder.written List.app] in *.
  apply render_template_ok in Ec as (css_template & Hc & ->).
  apply render_template_ok in Ef as (fish_template & Hf & ->).
  exists semantic, css_template, fish_template.
  split; [reflexivity|]. split; [exact HF|].
  split; [exact Hc|]. split; [exact Hf|].
  split; [simpl; auto 10|]. split; [simpl; auto 10|].
  now apply validated_canonical_same.
Qed.

Lemma semantic_artifacts_use_validated_values_witness :
  let d := Examples.disk_of Examples.semantic_plain in
  exists semantic css_template fish_template,
    ThemeBuilder.validate_semantic
      (fst (OverrideManager.apply_overrides
              (ThemeBuilder.global_override d)
              (ThemeBuilder.per_theme_override d) Examples.semantic_plain))
    = Ok semantic
    /\ Forall2 Spec.validated_entry
               (fst (OverrideManager.apply_overrides
                       (ThemeBuilder.global_override d)
                       (ThemeBuilder.per_theme_override d)
                       Examples.semantic_plain))
               semantic
    /\ ThemeBuilder.templates d "ida-semantic.css.tmpl" = Some css_template
    /\ ThemeBuilder.templates d "ida-semantic.fish.tmpl" = Some fish_template
    /\ In ("ida-semantic.css", ThemeBuilder.render css_template semantic)
          (ThemeBuilder.written (ThemeBuilder.build d))
    /\ In ("ida-semantic.fish", ThemeBuilder.render fish_template semantic)
          (ThemeBuilder.written (ThemeBuilder.build d))
    /\ (Forall (fun item => Spec.canonical (snd item) = true)
               (fst (OverrideManager.apply_overrides
                       (ThemeBuilder.global_override d)
                       (ThemeBuilder.per_theme_override d)
                       Examples.semantic_plain)) ->
        semantic = fst (OverrideManager.apply_overrides
                          (ThemeBuilder.global_override d)
                          (ThemeBuilder.per_theme_override d)
                          Examples.semantic_plain)).
Proof.
  intros d.
  apply (semantic_artifacts_use_validated_values
           d Examples.theme0 Examples.semantic_plain).
  - reflexivity.
  - repeat constructor; simpl; intuition discriminate.
  - vm_compute. reflexivity.
Defined.

(** The end-to-end example of the specification: with accent [#89B4FA] and
    no override file, the window-manager configuration holds [89B4FAFF] and
    the stylesheet [#89B4FA]. *)
Example build_end_to_end :
  ThemeBuilder.build (Examples.disk_of Examples.semantic_canonical)
  = {| ThemeBuilder.stderr := [];
       ThemeBuilder.written :=
         [("fish-theme.fish", "set -g fish_color_normal CDD6F4");
          ("wofi-colors.css",
           "@define-color bg #1E1E2E; @define-color bg_alt #2e2e46;");
          ("ida-semantic.conf", "$accent = rgba(89B4FAFF)");
          ("ida-semantic.css", "@define-color accent #89B4FA;");
          ("ida-semantic.fish", "set -gx IDA_ACCENT #89B4FA")];
       ThemeBuilder.status := Ok tt |}.
Proof. vm_compute. reflexivity. Qed.

(** ** ColorUtils *)

Section FormatFacts.

(** A property of every integer from 0 to [n - 1], checked on each. *)
Lemma Z_below_all (P : Z -> bool) (n : nat) :
  List.forallb (fun k => P (Z.of_nat k)) (List.seq 0 n) = true ->
  forall z, (0 <= z < Z.of_nat n)%Z -> P z = true.
Proof.
  intros H z Hz. rewrite List.forallb_forall in H.
  rewrite <- (Z2Nat.id z) by lia. apply H. apply List.in_seq. lia.
Qed.







End FormatFacts.







(** * Further properties *)

(** ** ColorValidator.validate *)

Section ValidateMore.

Import ColorValidator.

Lemma hex_digit_not_hash (c : ascii) :
  PyStr.is_hex_digit c = true -> Ascii.eqb c "#" = false.
Proof.
  assert (H : forall c, implb (PyStr.is_hex_digit c)
                              (negb (Ascii.eqb c "#")) = true)
    by (apply ascii_all; vm_compute; reflexivity).
  specialize (H c). intros E. rewrite E in H. simpl in H.
  now destruct (Ascii.eqb c "#").
Qed.

(** The part of the string the six digits are looked for in. *)
Lemma HEX_PATTERN_body (c : ascii) (t : string) :
  match String c t with
  | String "#" t' => t'
  | _ => String c t
  end = if Ascii.eqb c "#" then t else String c t.
Proof. destruct c as [[] [] [] [] [] [] [] []]; reflexivity. Qed.

Lemma six_digits_slice (s : string) :
  String.length s = 6 -> PyStr.slice 0 6 s = s /\ PyStr.drop 6 s = "".
Proof.
  intros H. do 6 (destruct s as [|? s]; [discriminate|]).
  destruct s; [split; reflexivity | discriminate].
Qed.

Lemma HEX_PATTERN_match_digits (g : string) :
  Spec.six_hex_digits g = true ->
  HEX_PATTERN_match g = Some g /\ HEX_PATTERN_match (String "#" g) = Some g.
Proof.
  unfold Spec.six_hex_digits. intros H.
  apply andb_true_iff in H as [Hl Hh]. apply Nat.eqb_eq in Hl.
  destruct (six_digits_slice g Hl) as [Hs Hd].
  assert (Hb : HEX_PATTERN_match (String "#" g) = Some g).
  { unfold HEX_PATTERN_match. rewrite Hs, Hd, Hl, Hh. reflexivity. }
  split; [|exact Hb].
  destruct g as [|c g]; [discriminate|].
  unfold HEX_PATTERN_match. rewrite HEX_PATTERN_body.
  simpl in Hh. apply andb_true_iff in Hh as [Hc Hg].
  rewrite (hex_digit_not_hash c Hc), Hs, Hd, Hl.
  cbn [PyStr.forallb]. now rewrite Hc, Hg.
Qed.

Lemma plain_color_cases (s : string) :
  Spec.plain_color s = true ->
  exists g, Spec.six_hex_digits g = true /\ (s = g \/ s = String "#" g).
Proof.
  unfold Spec.plain_color. intros H. apply orb_true_iff in H as [H | H].
  - exists s. auto.
  - destruct s as [|c t]; [discriminate|].
    destruct (Ascii.eqb_spec c "#") as [->|n].
    + exists t. auto.
    + destruct c as [[] [] [] [] [] [] [] []]; try discriminate.
      now elim n.
Qed.

Lemma plain_color_nonempty (s : string) :
  Spec.plain_color s = true -> s <> "".
Proof. now destruct s. Qed.

Lemma strip_empty : PyStr.strip "" = "".
Proof. reflexivity. Qed.

Lemma six_digits_strip_hash (g : string) :
  Spec.six_hex_digits g = true -> strip_hash g = g.
Proof.
  unfold Spec.six_hex_digits. intros H. apply andb_true_iff in H as [_ Hh].
  destruct g as [|c g]; [reflexivity|]. simpl in Hh.
  apply andb_true_iff in Hh as [Hc _]. apply lstrip_by_id.
  unfold is_hash. now apply hex_digit_not_hash.
Qed.

Lemma validate_not_plain (color context : string) :
  Spec.plain_color (PyStr.strip color) = false ->
  exists msg, validate color context = Raise (ValueError msg).
Proof.
  intros H. destruct (validate color context) as [c|e] eqn:E.
  - exfalso. destruct (validate_ok _ _ _ E) as (g & Hg & _ & [Hs | Hs]);
      rewrite Hs in H; unfold Spec.plain_color in H.
    + now rewrite Hg in H.
    + cbn [String.append] in H. rewrite Hg in H.
      now rewrite orb_true_r in H.
  - destruct (validate_raises _ _ _ E) as [msg ->]. now exists msg.
Qed.

(** [validate] returns exactly for the strings that are a colour once
    the blanks around them are removed. *)
Lemma validate_returns_iff (color context : string) :
  (exists c, validate color context = Ok c)
  <-> Spec.plain_color (PyStr.strip color) = true.
Proof.
  split.
  - intros [c H]. destruct (Spec.plain_color (PyStr.strip color)) eqn:E;
      [reflexivity|].
    destruct (validate_not_plain color context E) as [msg Hm]. congruence.
  - intros H. destruct (plain_color_cases _ H) as (g & Hg & Hs).
    assert (Hne : color <> "")
      by (intros ->; now apply (plain_color_nonempty _ H)).
    unfold validate. destruct color as [|x color]; [easy|].
    destruct (HEX_PATTERN_match_digits g Hg) as [H1 H2].
    destruct Hs as [-> | ->]; [rewrite H1 | rewrite H2]; eauto.
Qed.

End ValidateMore.

(** X1.  [validate] returns exactly for the strings that are, once the
    blanks around them are removed, six hex digits with one optional
    marker; what it returns is the marker followed by those digits in upper
    case, in canonical form, whatever the context. *)
Theorem validate_accepts_iff (color context : string) :
  ((exists c, ColorValidator.validate color context = Ok c)
   <-> Spec.plain_color (PyStr.strip color) = true)
  /\ (forall c,
        ColorValidator.validate color context = Ok c ->
        c = "#" ++ PyStr.upper (ColorValidator.strip_hash (PyStr.strip color))
        /\ Spec.canonical c = true).
Proof.
  split; [apply validate_returns_iff|].
  intros c H. split; [|now apply (validate_canonical color context)].
  destruct (validate_ok _ _ _ H) as (g & Hg & -> & [Hs | Hs]); rewrite Hs.
  - now rewrite six_digits_strip_hash.
  - cbn [String.append]. unfold ColorValidator.strip_hash.
    cbn [PyStr.lstrip_by ColorValidator.is_hash].
    change (Ascii.eqb "#" "#") with true. cbv iota.
    fold (ColorValidator.strip_hash g). now rewrite six_digits_strip_hash.
Qed.

(** X2.  [validate] is idempotent: what it returns is returned unchanged
    when validated again, under any context. *)
Theorem validate_idempotent (color context context' c : string) :
  ColorValidator.validate color context = Ok c ->
  ColorValidator.validate c context' = Ok c.
Proof.
  intros H. apply validate_canonical_id.
  now apply (validate_canonical color context).
Qed.

Lemma validate_idempotent_witness :
  ColorValidator.validate "#FF5F5F" "semantic.urgent" = Ok "#FF5F5F".
Proof.
  exact (validate_idempotent " ff5f5f" "overrides.conf line 3"
                             "semantic.urgent" "#FF5F5F" eq_refl).
Defined.

(** ** OverrideManager.read_overrides *)

Section ReadMore.

Import OverrideManager.

Lemma Forall_set (P : string * string -> Prop) (k v : string) (d : Dict.t) :
  (forall k', P (k', v)) -> Forall P d -> Forall P (Dict.set k v d).
Proof.
  intros Hv. induction 1 as [|[k0 v0] d H0 Hd IH]; simpl.
  - constructor; [apply Hv | constructor].
  - destruct (String.eqb k0 k); constructor; auto.
Qed.

Lemma Forall_set_key (P : string * string -> Prop) (k v : string)
      (d : Dict.t) :
  P (k, v) -> Forall P d -> Forall P (Dict.set k v d).
Proof.
  intros Hv. induction 1 as [|[k0 v0] d H0 Hd IH]; simpl.
  - constructor; [exact Hv | constructor].
  - destruct (String.eqb_spec k0 k) as [->|_]; constructor; auto.
Qed.

Lemma read_line_entries (fname : string) (n : nat) (line : string)
      (st : reading) :
  Forall (fun e => fst e <> "" /\ Spec.canonical (snd e) = true) (fst st) ->
  Forall (fun e => fst e <> "" /\ Spec.canonical (snd e) = true)
         (fst (read_line fname n line st)).
Proof.
  intros H. unfold read_line.
  destruct (entry_of_line line) as [[k v]|] eqn:E; [|exact H].
  destruct (ColorValidator.validate v _) as [c|e] eqn:Ev; [|exact H].
  cbn [fst]. apply Forall_set_key; [|exact H]. split.
  - apply (entry_of_line_nonempty _ _ _ E).
  - apply (validate_canonical _ _ _ Ev).
Qed.

Lemma read_lines_entries (fname : string) (lines : list string) :
  forall (n : nat) (st : reading),
    Forall (fun e => fst e <> "" /\ Spec.canonical (snd e) = true) (fst st) ->
    Forall (fun e => fst e <> "" /\ Spec.canonical (snd e) = true)
           (fst (read_lines fname n lines st)).
Proof.
  induction lines as [|l lines IH]; intros n st H; simpl; [exact H|].
  apply IH. now apply read_line_entries.
Qed.

Lemma read_lines_skip (fname : string) (lines : list string) :
  forall (n : nat) (st : reading),
    Forall (fun l => entry_of_line l = None) lines ->
    read_lines fname n lines st = st.
Proof.
  induction lines as [|l lines IH]; intros n st H; simpl; [reflexivity|].
  inversion H as [|? ? Hl Hr]; subst. rewrite IH by assumption.
  unfold read_line. now rewrite Hl.
Qed.

Lemma read_lines_get_other (fname key : string) (lines : list string) :
  forall (n : nat) (st : reading),
    (forall l v, In l lines -> entry_of_line l <> Some (key, v)) ->
    Dict.get key (fst (read_lines fname n lines st)) = Dict.get key (fst st).
Proof.
  induction lines as [|l lines IH]; intros n st H; simpl; [reflexivity|].
  rewrite IH by (intros l' v Hin; apply H; now right).
  unfold read_line. destruct (entry_of_line l) as [[k v]|] eqn:E;
    [|reflexivity].
  destruct (ColorValidator.validate v _); [|reflexivity].
  cbn [fst]. apply get_set_other. intros ->.
  now apply (H l v (or_introl eq_refl)).
Qed.

Lemma read_overrides_Forall (filepath : file) :
  Forall (fun e => fst e <> "" /\ Spec.canonical (snd e) = true)
         (fst (read_overrides filepath)).
Proof.
  unfold read_overrides. destruct (text filepath); [|constructor].
  apply read_lines_entries. constructor.
Qed.

End ReadMore.

(** X3.  Every entry of the mapping [read_overrides] returns has a
    non-empty key and a value in canonical form (marker and six upper-case
    hex digits), whatever the file holds. *)
Theorem read_overrides_entries_canonical
        (filepath : OverrideManager.file) (key value : string) :
  In (key, value) (fst (OverrideManager.read_overrides filepath)) ->
  key <> "" /\ Spec.canonical value = true.
Proof.
  intros H. pose proof (read_overrides_Forall filepath) as HF.
  rewrite List.Forall_forall in HF. exact (HF _ H).
Qed.

Lemma read_overrides_entries_canonical_witness :
  "IDA_ACCENT" <> "" /\ Spec.canonical "#445566" = true.
Proof.
  apply (read_overrides_entries_canonical
           {| OverrideManager.name := "overrides.conf";
              OverrideManager.text := Some " IDA_ACCENT = 445566 " |}).
  vm_compute. auto.
Defined.

(** X4.  A file that does not exist, and a file in which every line is
    blank, a comment ([#] first after the blanks), has no [=], or has
    nothing on one side of its first [=], give the empty mapping and no
    warning. *)
Theorem read_overrides_nothing_to_read (filepath : OverrideManager.file) :
  match OverrideManager.text filepath with
  | None => True
  | Some content =>
      Forall (fun line =>
                let line := PyStr.strip line in
                line = ""
                \/ PyStr.startswith "#" line = true
                \/ PyStr.split_first "=" line = None
                \/ (exists key value,
                      PyStr.split_first "=" line = Some (key, value)
                      /\ (PyStr.strip key = "" \/ PyStr.strip value = "")))
             (PyStr.splitlines content)
  end ->
  OverrideManager.read_overrides filepath = ([], []).
Proof.
  unfold OverrideManager.read_overrides.
  destruct (OverrideManager.text filepath) as [content|]; [|reflexivity].
  intros H. apply read_lines_skip. revert H. apply List.Forall_impl.
  intros line. cbv zeta. unfold OverrideManager.entry_of_line.
  intros [-> | [H | [H | (k & v & H & Hkv)]]].
  - reflexivity.
  - rewrite H. now rewrite orb_true_r.
  - rewrite H. now destruct (_ || _).
  - rewrite H. destruct (_ || _); [reflexivity|].
    destruct Hkv as [-> | ->]; [reflexivity|]. now rewrite orb_true_r.
Qed.

Lemma read_overrides_nothing_to_read_witness :
  OverrideManager.read_overrides
    {| OverrideManager.name := "overrides.conf";
       OverrideManager.text :=
         Some ("# colours" ++ String PyStr.nl
                 ("" ++ String PyStr.nl
                    ("IDA_ACCENT" ++ String PyStr.nl "IDA_URGENT= "))) |}
  = ([], []).
Proof.
  apply read_overrides_nothing_to_read. cbn [OverrideManager.text].
  change (PyStr.splitlines _)
    with ["# colours"; ""; "IDA_ACCENT"; "IDA_URGENT= "].
  apply List.Forall_cons; [right; left; reflexivity|].
  apply List.Forall_cons; [left; reflexivity|].
  apply List.Forall_cons; [right; right; left; reflexivity|].
  apply List.Forall_cons; [|apply List.Forall_nil].
  right. right. right. exists "IDA_URGENT", "". split; [reflexivity|].
  right. reflexivity.
Defined.

(** X5.  Of several lines that set one key, the last one counts: after a
    line that gives [key] a valid colour, and with no later line for
    [key], the mapping holds for [key] the canonical form of that colour. *)
Theorem read_overrides_last_line_wins
        (filepath : OverrideManager.file) (content : string)
        (pre post : list string) (line key value context c : string) :
  OverrideManager.text filepath = Some content ->
  PyStr.splitlines content = (pre ++ line :: post)%list ->
  OverrideManager.entry_of_line line = Some (key, value) ->
  ColorValidator.validate value context = Ok c ->
  (forall l v, In l post -> OverrideManager.entry_of_line l <> Some (key, v)) ->
  Dict.get key (fst (OverrideManager.read_overrides filepath)) = Some c.
Proof.
  intros Ht Hl He Hv Hpost. unfold OverrideManager.read_overrides.
  rewrite Ht, Hl, read_lines_app. cbn [OverrideManager.read_lines].
  rewrite read_lines_get_other by assumption.
  unfold OverrideManager.read_line. rewrite He.
  pose proof (validate_context value context
                (OverrideManager.name filepath ++ " line "
                 ++ PyStr.of_nat (S (0 + List.length pre)))) as Hc.
  rewrite Hv in Hc.
  destruct (ColorValidator.validate value (_ ++ _)) as [c'|]; [|contradiction].
  subst c'. cbn [fst]. apply get_set_same.
Qed.

Lemma read_overrides_last_line_wins_witness :
  Dict.get "IDA_ACCENT"
    (fst (OverrideManager.read_overrides
            {| OverrideManager.name := "overrides.conf";
               OverrideManager.text :=
                 Some ("IDA_ACCENT=112233" ++ String PyStr.nl
                         ("IDA_ACCENT=#aabbcc" ++ String PyStr.nl
                            "IDA_URGENT=ff0000")) |}))
  = Some "#AABBCC".
Proof.
  apply (read_overrides_last_line_wins
           {| OverrideManager.name := "overrides.conf";
              OverrideManager.text :=
                Some ("IDA_ACCENT=112233" ++ String PyStr.nl
                        ("IDA_ACCENT=#aabbcc" ++ String PyStr.nl
                           "IDA_URGENT=ff0000")) |}
           ("IDA_ACCENT=112233" ++ String PyStr.nl
              ("IDA_ACCENT=#aabbcc" ++ String PyStr.nl "IDA_URGENT=ff0000"))
           ["IDA_ACCENT=112233"] ["IDA_URGENT=ff0000"]
           "IDA_ACCENT=#aabbcc" "IDA_ACCENT" "#aabbcc" "" "#AABBCC"
           eq_refl eq_refl eq_refl eq_refl).
  intros l v [<- | []]. vm_compute. discriminate.
Defined.

(** ** OverrideManager.apply_overrides *)

Section ApplyMore.

Import OverrideManager.

Lemma apply_mapping_Forall (P : string * string -> Prop)
      (overrides : Dict.t) :
  Forall (fun e => forall k, P (k, snd e)) overrides ->
  forall d, Forall P d -> Forall P (apply_mapping overrides d).
Proof.
  unfold apply_mapping.
  induction 1 as [|e rest He _ IH]; intros d Hd; simpl; [exact Hd|].
  apply IH. unfold apply_entry. destruct (Dict.mem _ d); [|exact Hd].
  now apply Forall_set.
Qed.

Lemma apply_mapping_unknown (overrides d : Dict.t) :
  Forall (fun e => Dict.mem (semantic_key (fst e)) d = false) overrides ->
  apply_mapping overrides d = d.
Proof.
  unfold apply_mapping. induction 1 as [|e rest He _ IH]; simpl;
    [reflexivity|].
  unfold apply_entry at 2. now rewrite He.
Qed.

(** A replacement leaves a text without occurrence as it is. *)
Lemma replace_absent (old new s : string) :
  old <> "" -> PyStr.contains old s = false -> PyStr.replace old new s = s.
Proof.
  intros Ho. induction s as [|c s IH]; intros H.
  - now destruct old.
  - cbn [PyStr.contains] in H. apply orb_false_iff in H as [Hp Hc].
    rewrite replace_elsewhere by assumption. now rewrite IH.
Qed.

End ApplyMore.

(** X6.  [apply_overrides] returns a mapping with exactly the keys of the
    defaults, in their order: no override adds, removes or moves a key. *)
Theorem apply_overrides_keeps_keys
        (g p : OverrideManager.file) (defaults : Dict.t) :
  Dict.keys (fst (OverrideManager.apply_overrides g p defaults))
  = Dict.keys defaults.
Proof. rewrite apply_overrides_merge. apply merge_keys. Qed.

(** X7.  Every entry of the merged mapping is an entry of the defaults, or
    has a value in canonical form that an override file supplied. *)
Theorem apply_overrides_values
        (g p : OverrideManager.file) (defaults : Dict.t) (key value : string) :
  In (key, value) (fst (OverrideManager.apply_overrides g p defaults)) ->
  In (key, value) defaults
  \/ (Spec.canonical value = true
      /\ exists rawKey file,
          (file = g \/ file = p)
          /\ In (rawKey, value) (fst (OverrideManager.read_overrides file))).
Proof.
  rewrite apply_overrides_merge. unfold OverrideManager.merge.
  pose (Q := fun e : string * string =>
               In e defaults
               \/ (Spec.canonical (snd e) = true
                   /\ exists rawKey file,
                       (file = g \/ file = p)
                       /\ In (rawKey, snd e)
                             (fst (OverrideManager.read_overrides file)))).
  assert (Hf : forall file, file = g \/ file = p ->
                 Forall (fun e => forall k, Q (k, snd e))
                        (fst (OverrideManager.read_overrides file))).
  { intros file Hfile. apply List.Forall_forall. intros [rk v] Hin k.
    right. cbn [snd]. split.
    - pose proof (read_overrides_Forall file) as HF.
      rewrite List.Forall_forall in HF. apply (HF (rk, v) Hin).
    - exists rk, file. auto. }
  assert (HF : Forall Q (OverrideManager.apply_mapping
                           (fst (OverrideManager.read_overrides p))
                           (OverrideManager.apply_mapping
                              (fst (OverrideManager.read_overrides g))
                              defaults))).
  { apply apply_mapping_Forall; [apply Hf; auto|].
    apply apply_mapping_Forall; [apply Hf; auto|].
    apply List.Forall_forall. intros e He. now left. }
  rewrite List.Forall_forall in HF. intros H. exact (HF _ H).
Qed.

Lemma apply_overrides_values_witness :
  In ("accent", "#445566") [("accent", "#112233")]
  \/ (Spec.canonical "#445566" = true
      /\ exists rawKey file,
          (file = {| OverrideManager.name := "overrides.conf";
                     OverrideManager.text := Some "IDA_ACCENT=445566" |}
           \/ file = Examples.no_file)
          /\ In (rawKey, "#445566")
                (fst (OverrideManager.read_overrides file))).
Proof.
  apply (apply_overrides_values _ _ [("accent", "#112233")] "accent" "#445566").
  vm_compute. auto.
Defined.

(** X8.  Overrides whose keys name no default are passed over: when no
    entry of either file maps to a key of the defaults, the merged mapping
    is the defaults. *)
Theorem apply_overrides_unknown_keys
        (g p : OverrideManager.file) (defaults : Dict.t) :
  (forall file rawKey value,
      file = g \/ file = p ->
      In (rawKey, value) (fst (OverrideManager.read_overrides file)) ->
      Dict.mem (OverrideManager.semantic_key rawKey) defaults = false) ->
  fst (OverrideManager.apply_overrides g p defaults) = defaults.
Proof.
  intros H. rewrite apply_overrides_merge. unfold OverrideManager.merge.
  rewrite (apply_mapping_unknown (fst (OverrideManager.read_overrides g)))
    by (apply List.Forall_forall; intros [rk v] Hin; apply (H g rk v); auto).
  apply apply_mapping_unknown.
  apply List.Forall_forall. intros [rk v] Hin. apply (H p rk v); auto.
Qed.

Lemma apply_overrides_unknown_keys_witness :
  fst (OverrideManager.apply_overrides
         {| OverrideManager.name := "overrides.conf";
            OverrideManager.text := Some "IDA_BORDER=445566" |}
         Examples.no_file Examples.semantic_canonical)
  = Examples.semantic_canonical.
Proof.
  apply apply_overrides_unknown_keys.
  intros file rawKey value [-> | ->] Hin.
  - vm_compute in Hin. destruct Hin as [[= <- <-] | []]. reflexivity.
  - vm_compute in Hin. contradiction.
Defined.

(** X9.  For a raw key with no [IDA_] in it beyond a leading one, the
    program forms the semantic key the way the format intends: the prefix,
    when present, is dropped once and the rest is put in lower case. *)
Theorem semantic_key_of_plain_role (role : string) :
  PyStr.contains "IDA_" role = false ->
  OverrideManager.semantic_key ("IDA_" ++ role) = PyStr.lower role
  /\ OverrideManager.semantic_key role = PyStr.lower role
  /\ Spec.semantic_key ("IDA_" ++ role) = PyStr.lower role
  /\ Spec.semantic_key role = PyStr.lower role.
Proof.
  intros H. unfold OverrideManager.semantic_key, Spec.semantic_key.
  assert (Hne : "IDA_" <> "") by discriminate.
  repeat split.
  - rewrite (replace_at_occurrence "IDA_" "" role Hne).
    now rewrite (replace_absent "IDA_" "" role Hne H).
  - now rewrite (replace_absent "IDA_" "" role Hne H).
  - unfold PyStr.startswith. destruct role; reflexivity.
  - unfold PyStr.startswith. destruct role as [|c role]; [reflexivity|].
    cbn [PyStr.contains] in H. apply orb_false_iff in H as [Hp _].
    now rewrite Hp.
Qed.

Lemma semantic_key_of_plain_role_witness :
  OverrideManager.semantic_key ("IDA_" ++ "ACCENT2") = PyStr.lower "ACCENT2".
Proof. exact (proj1 (semantic_key_of_plain_role "ACCENT2" eq_refl)). Defined.

(** ** ThemeBuilder.build and main *)

Section BuildFacts.

Import ThemeBuilder.

Lemma bind_raise {A B : Type} (r : result A) (k : A -> result B) (e : exn) :
  bind r k = Raise e -> r = Raise e \/ exists a, r = Ok a /\ k a = Raise e.
Proof. destruct r as [a|e']; simpl; [eauto | intros [= ->]; auto]. Qed.

Lemma lookup_raise (k : string) (d : Dict.t) (e : exn) :
  Dict.lookup k d = Raise e -> e = KeyError k /\ Dict.get k d = None.
Proof.
  unfold Dict.lookup. destruct (Dict.get k d); [discriminate|].
  now intros [= <-].
Qed.

Lemma color_at_raise (t : theme) (i : nat) (e : exn) :
  color_at t i = Raise e -> exists m, e = IndexError m.
Proof.
  unfold color_at. destruct (List.nth_error _ _); [discriminate|].
  intros [= <-]. eauto.
Qed.

Lemma render_template_raise (d : disk) (n : string) (data : Dict.t)
      (e : exn) :
  render_template d n data = Raise e -> exists m, e = FileNotFoundError m.
Proof.
  unfold render_template. destruct (templates d n); [discriminate|].
  intros [= <-]. eauto.
Qed.

Lemma int16_raise (s : string) (e : exn) :
  Hex.int16 s = Raise e -> exists m, e = ValueError m.
Proof.
  unfold Hex.int16. destruct s; [intros [= <-]; eauto|].
  destruct (Hex.parse_from _ _); [discriminate|]. intros [= <-]. eauto.
Qed.

Lemma to_int_raise (x : float) (e : exn) :
  PyFloat.to_int x = Raise e ->
  (exists m, e = ValueError m) \/ (exists m, e = OverflowError m).
Proof.
  unfold PyFloat.to_int. destruct (Prim2SF x); try discriminate;
    intros [= <-]; eauto.
Qed.

(** [lighten] raises nothing but [ValueError] and [OverflowError]. *)
Lemma lighten_raise (hex_color : string) (amount : float) (e : exn) :
  ColorUtils.lighten hex_color amount = Raise e ->
  (exists m, e = ValueError m) \/ (exists m, e = OverflowError m).
Proof.
  unfold ColorUtils.lighten. intros H.
  apply bind_raise in H as [H | ([[r g] b] & _ & H)]; [|discriminate].
  unfold ColorUtils.lighten_channels in H.
  repeat match type of H with
         | bind (Hex.int16 ?s) _ = Raise _ =>
             apply bind_raise in H as [H | (? & _ & H)];
             [left; now apply (int16_raise s)|]
         end.
  destruct (colorsys.rgb_to_hls _ _ _) as [[h l] s].
  destruct (colorsys.hls_to_rgb _ _ _) as [[r g] b].
  repeat match type of H with
         | bind (PyFloat.to_int ?x) _ = Raise _ =>
             apply bind_raise in H as [H | (? & _ & H)];
             [now apply (to_int_raise x)|]
         end.
  discriminate.
Qed.

Ltac step_bind H :=
  apply bind_raise in H as [H | (? & _ & H)].

Lemma artifacts_never_exit (d : disk) (t : theme) (semantic : Dict.t)
      (name : string) (code : nat) :
  ~ In (name, Raise (SystemExit code)) (artifacts d t semantic).
Proof.
  unfold artifacts. intros H.
  repeat (destruct H as [H | H]; [injection H as _ H|]); [..|contradiction].
  - unfold fish_theme in H.
    step_bind H; [apply lookup_raise in H as [H _]; discriminate|].
    step_bind H; [apply color_at_raise in H as [? H]; discriminate|].
    apply render_template_raise in H as [? H]. discriminate.
  - unfold wofi_colors in H.
    step_bind H;
      [apply lighten_raise in H as [[? H] | [? H]]; discriminate|].
    step_bind H;
      [apply lighten_raise in H as [[? H] | [? H]]; discriminate|].
    step_bind H; [apply lookup_raise in H as [H _]; discriminate|].
    step_bind H; [apply color_at_raise in H as [? H]; discriminate|].
    do 4 (step_bind H; [apply lookup_raise in H as [H _]; discriminate|]).
    apply render_template_raise in H as [? H]. discriminate.
  - unfold semantic_conf in H.
    do 4 (step_bind H; [apply lookup_raise in H as [H _]; discriminate|]).
    apply render_template_raise in H as [? H]. discriminate.
  - apply render_template_raise in H as [? H]. discriminate.
  - apply render_template_raise in H as [? H]. discriminate.
Qed.

(** Files are written in order, up to the first one that fails. *)
Lemma write_all_prefix (todo : list (string * result string)) :
  forall done files st,
    write_all todo done = (files, st) ->
    exists n,
      n <= List.length todo
      /\ List.map fst files
         = (List.map fst done ++ List.firstn n (List.map fst todo))%list
      /\ (st = Ok tt <-> n = List.length todo)
      /\ (forall e, st = Raise e -> exists name, In (name, Raise e) todo).
Proof.
  induction todo as [|[path [content|e]] rest IH]; intros done files st H;
    simpl in H.
  - injection H as <- <-. exists 0. rewrite List.app_nil_r.
    repeat split; auto; discriminate.
  - apply IH in H as (n & Hn & Hf & Hs & He). exists (S n).
    split; [simpl; lia|]. split; [|split].
    + rewrite Hf, List.map_app, <- List.app_assoc. reflexivity.
    + rewrite Hs. simpl. lia.
    + intros e Hst. destruct (He e Hst) as [name Hin].
      exists name. now right.
  - injection H as <- <-. exists 0. rewrite List.app_nil_r.
    split; [simpl; lia|]. split; [reflexivity|]. split.
    + split; [discriminate | simpl; lia].
    + intros e' [= <-]. exists path. now left.
Qed.

Lemma validate_items_total (items : Dict.t) :
  Forall (fun e => Spec.plain_color (PyStr.strip (snd e)) = true) items ->
  forall semantic, exists semantic',
    validate_items items semantic = Ok semantic'.
Proof.
  induction 1 as [|[k v] rest Hv _ IH]; intros semantic;
    cbn [validate_items]; [eauto|]. cbn [snd] in Hv.
  destruct (proj2 (validate_returns_iff v ("semantic." ++ k)) Hv)
    as [c Hc].
  rewrite Hc. cbn [bind]. apply IH.
Qed.

Lemma validate_items_fail (items : Dict.t) :
  Exists (fun e => Spec.plain_color (PyStr.strip (snd e)) = false) items ->
  forall semantic, exists msg,
    validate_items items semantic = Raise (ValueError msg).
Proof.
  induction items as [|[k v] rest IH]; intros H semantic;
    [inversion H|].
  cbn [validate_items].
  destruct (ColorValidator.validate v ("semantic." ++ k)) as [c|e] eqn:E.
  - cbn [bind]. apply IH. inversion H as [? ? Hv | ? ? Hr]; subst;
      [|assumption]. cbn [snd] in Hv.
    destruct (validate_not_plain v ("semantic." ++ k) Hv) as [msg Hm].
    congruence.
  - destruct (validate_raises _ _ _ E) as [msg ->]. cbn [bind]. eauto.
Qed.

Lemma validate_items_keys (items : Dict.t) :
  forall semantic semantic',
    Forall (fun e => Dict.mem (fst e) semantic = true) items ->
    validate_items items semantic = Ok semantic' ->
    Dict.keys semantic' = Dict.keys semantic.
Proof.
  induction items as [|[k v] rest IH]; intros semantic semantic' HF H;
    cbn [validate_items] in H.
  - now injection H as <-.
  - destruct (ColorValidator.validate v _) as [c|]; [|discriminate].
    cbn [bind] in H. inversion HF as [|? ? Hk Hr]; subst. cbn [fst] in Hk.
    apply IH in H.
    + now rewrite H, keys_set.
    + revert Hr. apply List.Forall_impl. intros e He.
      now rewrite (mem_same_keys _ _ _ (keys_set k c semantic Hk)).
Qed.

Lemma validate_semantic_keys (merged semantic : Dict.t) :
  validate_semantic merged = Ok semantic ->
  Dict.keys semantic = Dict.keys merged.
Proof.
  apply validate_items_keys. apply List.Forall_forall. intros [k v] Hin.
  apply mem_keys. now apply (List.in_map fst) in Hin.
Qed.

Lemma canonical_plain (v : string) :
  Spec.canonical v = true -> Spec.plain_color (PyStr.strip v) = true.
Proof.
  intros H. apply (proj1 (validate_returns_iff v "")).
  exists v. now apply validate_canonical_id.
Qed.

End BuildFacts.

Section BuildMore.

Import ThemeBuilder.

Lemma valid_or_invalid (items : Dict.t) :
  Forall (fun e => Spec.plain_color (PyStr.strip (snd e)) = true) items
  \/ Exists (fun e => Spec.plain_color (PyStr.strip (snd e)) = false) items.
Proof.
  induction items as [|e rest [IH | IH]]; [left; constructor | |].
  - destruct (Spec.plain_color (PyStr.strip (snd e))) eqn:E.
    + left. now constructor.
    + right. now constructor.
  - right. now constructor.
Qed.

Lemma merged_valid (g p : OverrideManager.file) (defaults : Dict.t) :
  Forall (fun e => Spec.plain_color (PyStr.strip (snd e)) = true) defaults ->
  Forall (fun e => Spec.plain_color (PyStr.strip (snd e)) = true)
         (fst (OverrideManager.apply_overrides g p defaults)).
Proof.
  intros H. rewrite apply_overrides_merge. unfold OverrideManager.merge.
  assert (Hf : forall file,
             Forall (fun e : string * string =>
                       forall k : string,
                         Spec.plain_color (PyStr.strip (snd (k, snd e)))
                         = true)
                    (fst (OverrideManager.read_overrides file))).
  { intros file. generalize (read_overrides_Forall file).
    apply List.Forall_impl. intros e [_ He] k. now apply canonical_plain. }
  apply apply_mapping_Forall; [apply Hf|].
  apply apply_mapping_Forall; [apply Hf | exact H].
Qed.

(** The three ways [build] ends. *)
Lemma build_cases (d : disk) :
  (exists e, read_theme_data d = Raise e
             /\ build d = {| stderr := []; written := []; status := Raise e |})
  \/ (exists t defaults e,
        read_theme_data d = Ok (t, defaults)
        /\ validate_semantic
             (fst (OverrideManager.apply_overrides
                     (global_override d) (per_theme_override d) defaults))
           = Raise e
        /\ build d
           = {| stderr :=
                  List.app
                    (snd (OverrideManager.apply_overrides
                            (global_override d) (per_theme_override d)
                            defaults))
                    ["Error: " ++ exn_message e];
                written := [];
                status := Raise (SystemExit 1) |})
  \/ (exists t defaults semantic,
        read_theme_data d = Ok (t, defaults)
        /\ validate_semantic
             (fst (OverrideManager.apply_overrides
                     (global_override d) (per_theme_override d) defaults))
           = Ok semantic
        /\ build d
           = {| stderr :=
                  snd (OverrideManager.apply_overrides
                         (global_override d) (per_theme_override d) defaults);
                written := fst (write_all (artifacts d t semantic) []);
                status := snd (write_all (artifacts d t semantic) []) |}).
Proof.
  unfold build. destruct (read_theme_data d) as [[t defaults]|e];
    [|left; eauto].
  right. destruct (OverrideManager.apply_overrides _ _ defaults)
    as [merged warnings] eqn:Ea.
  destruct (validate_semantic merged) as [semantic|e] eqn:Ev.
  - right. exists t, defaults, semantic. rewrite Ea. cbn [fst snd].
    split; [reflexivity|]. split; [exact Ev|].
    now destruct (write_all (artifacts d t semantic) []).
  - left. exists t, defaults, e. rewrite Ea. cbn [fst snd].
    split; [reflexivity|]. split; [exact Ev | reflexivity].
Qed.

(** Past the validation stage nothing ends the build with [sys.exit]. *)
Lemma write_all_never_exits (d : disk) (t : theme) (semantic : Dict.t)
      (code : nat) :
  snd (write_all (artifacts d t semantic) []) <> Raise (SystemExit code).
Proof.
  intros Hc. destruct (write_all _ _) as [files st] eqn:E.
  apply write_all_prefix in E as (_ & _ & _ & _ & He).
  destruct (He _ Hc) as [name Hin].
  exact (artifacts_never_exit _ _ _ _ _ Hin).
Qed.

Lemma build_prefix (d : disk) :
  exists n,
    n <= 5
    /\ List.map fst (written (build d)) = List.firstn n Main.artifact_names
    /\ (status (build d) = Ok tt <-> n = 5).
Proof.
  destruct (build_cases d)
    as [(e & _ & ->) | [(t & df & e & _ & _ & ->)
                       | (t & df & sem & _ & _ & ->)]].
  - exists 0. repeat split; auto with arith; discriminate.
  - exists 0. repeat split; auto with arith; discriminate.
  - destruct (write_all (artifacts d t sem) []) as [files st] eqn:E.
    apply write_all_prefix in E as (n & Hn & Hf & Hs & _).
    exists n. cbn [written status fst snd].
    split; [exact Hn|]. split; [exact Hf | exact Hs].
Qed.

End BuildMore.

(** X10.  [build] writes its files in a fixed order and stops at the first
    that fails: the names of the files written are the first [n] of the
    five artifact names, and the build succeeds exactly when all five are
    written. *)
Theorem build_writes_a_prefix (d : ThemeBuilder.disk) :
  exists n,
    n <= 5
    /\ List.map fst (ThemeBuilder.written (ThemeBuilder.build d))
       = List.firstn n Main.artifact_names
    /\ (ThemeBuilder.status (ThemeBuilder.build d) = Ok tt <-> n = 5).
Proof. exact (build_prefix d). Qed.

(** X11.  After the two JSON documents are read, [build] ends with
    [sys.exit(1)] exactly when some value of the merged mapping is not a
    colour; it has then written no file, and the last line on the
    diagnostic stream is the error. *)
Theorem build_exits_on_invalid_semantic
        (d : ThemeBuilder.disk) (t : ThemeBuilder.theme) (defaults : Dict.t) :
  ThemeBuilder.read_theme_data d = Ok (t, defaults) ->
  let merged :=
    OverrideManager.apply_overrides
      (ThemeBuilder.global_override d) (ThemeBuilder.per_theme_override d)
      defaults in
  ((exists code,
       ThemeBuilder.status (ThemeBuilder.build d) = Raise (SystemExit code))
   <-> Exists (fun e => Spec.plain_color (PyStr.strip (snd e)) = false)
              (fst merged))
  /\ (forall code,
        ThemeBuilder.status (ThemeBuilder.build d) = Raise (SystemExit code) ->
        code = 1
        /\ ThemeBuilder.written (ThemeBuilder.build d) = []
        /\ exists msg,
            ThemeBuilder.stderr (ThemeBuilder.build d)
            = List.app (snd merged) ["Error: " ++ msg]).
Proof.
  intros Hr. cbv zeta.
  destruct (build_cases d)
    as [(e & He & _) | [(t' & df & e & Hr' & Hv & Hb)
                       | (t' & df & sem & Hr' & Hv & Hb)]];
    [congruence | |]; rewrite Hr in Hr'; injection Hr' as <- <-; rewrite Hb;
    cbn [ThemeBuilder.written ThemeBuilder.status ThemeBuilder.stderr].
  - split; [split|].
    + intros _. destruct (valid_or_invalid
                            (fst (OverrideManager.apply_overrides
                                    (ThemeBuilder.global_override d)
                                    (ThemeBuilder.per_theme_override d)
                                    defaults))) as [HF | HE]; [|exact HE].
      destruct (validate_items_total _ HF
                  (fst (OverrideManager.apply_overrides
                          (ThemeBuilder.global_override d)
                          (ThemeBuilder.per_theme_override d) defaults)))
        as [sem Hs].
      unfold ThemeBuilder.validate_semantic in Hv. congruence.
    + intros _. now exists 1.
    + intros code [= <-]. split; [reflexivity|]. split; [reflexivity|].
      now exists (exn_message e).
  - assert (Hne : forall code,
               snd (ThemeBuilder.write_all
                      (ThemeBuilder.artifacts d t sem) [])
               <> Raise (SystemExit code)).
    { intros code Hc.
      destruct (ThemeBuilder.write_all _ _) as [files st] eqn:E.
      apply write_all_prefix in E as (_ & _ & _ & _ & He).
      destruct (He _ Hc) as [name Hin].
      exact (artifacts_never_exit _ _ _ _ _ Hin). }
    split; [split|].
    + intros [code Hc]. now elim (Hne code).
    + intros HE.
      destruct (validate_items_fail _ HE
                  (fst (OverrideManager.apply_overrides
                          (ThemeBuilder.global_override d)
                          (ThemeBuilder.per_theme_override d) defaults)))
        as [msg Hm].
      unfold ThemeBuilder.validate_semantic in Hv. congruence.
    + intros code Hc. now elim (Hne code).
Qed.

Lemma build_exits_on_invalid_semantic_witness :
  exists code,
    ThemeBuilder.status
      (ThemeBuilder.build (Examples.disk_of [("accent", "blue")]))
    = Raise (SystemExit code).
Proof.
  apply (proj1 (build_exits_on_invalid_semantic
                  (Examples.disk_of [("accent", "blue")])
                  Examples.theme0 [("accent", "blue")] eq_refl)).
  apply List.Exists_cons_hd. reflexivity.
Defined.

(** X12.  Override files cannot make the validation stage fail: when
    every default value is a colour, [build] does not end with
    [sys.exit], whatever the two override files hold. *)
Theorem overrides_never_exit
        (d : ThemeBuilder.disk) (t : ThemeBuilder.theme) (defaults : Dict.t) :
  ThemeBuilder.read_theme_data d = Ok (t, defaults) ->
  Forall (fun e => Spec.plain_color (PyStr.strip (snd e)) = true) defaults ->
  (exists semantic,
      ThemeBuilder.validate_semantic
        (fst (OverrideManager.apply_overrides
                (ThemeBuilder.global_override d)
                (ThemeBuilder.per_theme_override d) defaults))
      = Ok semantic)
  /\ forall code,
      ThemeBuilder.status (ThemeBuilder.build d) <> Raise (SystemExit code).
Proof.
  intros Hr HF.
  pose proof (merged_valid (ThemeBuilder.global_override d)
                           (ThemeBuilder.per_theme_override d) defaults HF)
    as Hm.
  split; [now apply validate_items_total|].
  intros code Hc.
  destruct (validate_items_total _ Hm
              (fst (OverrideManager.apply_overrides
                      (ThemeBuilder.global_override d)
                      (ThemeBuilder.per_theme_override d) defaults)))
    as [sem Hs].
  destruct (build_cases d)
    as [(e & He & _) | [(t' & df & e & Hr' & Hv & _)
                       | (t' & df & sem' & Hr' & Hv & Hb)]];
    [congruence | |]; rewrite Hr in Hr'; injection Hr' as <- <-.
  - unfold ThemeBuilder.validate_semantic in Hv. congruence.
  - rewrite Hb in Hc. cbn [ThemeBuilder.status] in Hc.
    exact (write_all_never_exits _ _ _ _ Hc).
Qed.

Lemma overrides_never_exit_witness :
  let d := {| ThemeBuilder.theme_json := Some Examples.theme0;
              ThemeBuilder.semantic_json := Some Examples.semantic_plain;
              ThemeBuilder.global_override :=
                {| OverrideManager.name := "overrides.conf";
                   OverrideManager.text := Some "IDA_ACCENT=not-a-colour" |};
              ThemeBuilder.per_theme_override := Examples.no_file;
              ThemeBuilder.templates := Examples.templates0 |} in
  exists semantic,
    ThemeBuilder.validate_semantic
      (fst (OverrideManager.apply_overrides
              (ThemeBuilder.global_override d)
              (ThemeBuilder.per_theme_override d) Examples.semantic_plain))
    = Ok semantic.
Proof.
  intros d.
  apply (overrides_never_exit d Examples.theme0 Examples.semantic_plain eq_refl).
  repeat (apply List.Forall_cons; [reflexivity|]). apply List.Forall_nil.
Defined.

Section MainFacts.

Import ThemeBuilder.







End MainFacts.


(** X14.  Without the key [urgent] among the defaults, a build that passes
    validation raises [KeyError] for it before any file is written. *)
Theorem build_without_urgent
        (d : ThemeBuilder.disk) (t : ThemeBuilder.theme)
        (defaults semantic : Dict.t) :
  ThemeBuilder.read_theme_data d = Ok (t, defaults) ->
  ThemeBuilder.validate_semantic
    (fst (OverrideManager.apply_overrides
            (ThemeBuilder.global_override d)
            (ThemeBuilder.per_theme_override d) defaults))
  = Ok semantic ->
  Dict.mem "urgent" defaults = false ->
  ThemeBuilder.written (ThemeBuilder.build d) = []
  /\ ThemeBuilder.status (ThemeBuilder.build d) = Raise (KeyError "urgent")
  /\ Main.exit_status d = 1.
Proof.
  intros Hr Hv Hu.
  assert (Hg : Dict.get "urgent" semantic = None).
  { pose proof (validate_semantic_keys _ _ Hv) as Hk.
    rewrite apply_overrides_merge, merge_keys in Hk.
    rewrite <- (mem_same_keys "urgent" _ _ Hk) in Hu.
    unfold Dict.mem in Hu. now destruct (Dict.get "urgent" semantic). }
  assert (Hb : ThemeBuilder.build d
               = {| ThemeBuilder.stderr :=
                      snd (OverrideManager.apply_overrides
                             (ThemeBuilder.global_override d)
                             (ThemeBuilder.per_theme_override d) defaults);
                    ThemeBuilder.written := [];
                    ThemeBuilder.status := Raise (KeyError "urgent") |}).
  { destruct (build_cases d)
      as [(e & He & _) | [(t' & df & e & Hr' & Hv' & _)
                         | (t' & df & sem & Hr' & Hv' & Hb)]];
      [congruence | |]; rewrite Hr in Hr'; injection Hr' as <- <-;
      [congruence|].
    rewrite Hv in Hv'. injection Hv' as <-. rewrite Hb.
    unfold ThemeBuilder.artifacts.
    assert (Hf : ThemeBuilder.fish_theme d t semantic
                 = Raise (KeyError "urgent")).
    { unfold ThemeBuilder.fish_theme, Dict.lookup. now rewrite Hg. }
    rewrite Hf. reflexivity. }
  unfold Main.exit_status, Main.main. rewrite Hb. cbn. auto.
Qed.

Lemma build_without_urgent_witness :
  ThemeBuilder.written
    (ThemeBuilder.build (Examples.disk_of [("accent", "#89B4FA")])) = []
  /\ ThemeBuilder.status
       (ThemeBuilder.build (Examples.disk_of [("accent", "#89B4FA")]))
     = Raise (KeyError "urgent")
  /\ Main.exit_status (Examples.disk_of [("accent", "#89B4FA")]) = 1.
Proof.
  apply (build_without_urgent
           (Examples.disk_of [("accent", "#89B4FA")]) Examples.theme0
           [("accent", "#89B4FA")] [("accent", "#89B4FA")]
           eq_refl eq_refl eq_refl).
Defined.

(** ** ThemeBuilder.render_template and ColorUtils.lighten *)

(** X15.  Rendering leaves a template as it is when the placeholder of no
    key of the data occurs in it: other placeholders, and braces in
    general, stay as written. *)
Theorem render_without_placeholders (content : string) (data : Dict.t) :
  (forall key value,
      In (key, value) data ->
      PyStr.contains ("{" ++ key ++ "}") content = false) ->
  ThemeBuilder.render content data = content.
Proof.
  unfold ThemeBuilder.render.
  induction data as [|[k v] rest IH]; intros H;
    cbn [List.fold_left fst snd]; [reflexivity|].
  assert (Hk : PyStr.replace ("{" ++ k ++ "}") v content = content).
  { apply replace_absent; [cbn; discriminate|].
    apply (H k v). now left. }
  rewrite Hk. apply IH. intros key value Hin. apply (H key value). now right.
Qed.

Lemma render_without_placeholders_witness :
  ThemeBuilder.render "zz={zzz} {fg" [("fg", "FFAA00"); ("bg", "000000")]
  = "zz={zzz} {fg".
Proof.
  apply render_without_placeholders.
  intros key value [[= <- <-] | [[= <- <-] | []]]; reflexivity.
Defined.

Section LightenFacts.

Lemma lstrip_hashes (n : nat) (s : string) :
  PyStr.startswith "#" s = false ->
  PyStr.lstrip_by ColorValidator.is_hash (Spec.hashes n ++ s) = s.
Proof.
  intros H. induction n as [|n IH]; simpl.
  - rewrite startswith_hash in H. destruct s as [|c s]; [reflexivity|].
    now apply lstrip_by_id.
  - exact IH.
Qed.

Lemma slices_of_six (c extra : string) :
  String.length c = 6 ->
  PyStr.slice 0 2 (c ++ extra) = PyStr.slice 0 2 c
  /\ PyStr.slice 2 4 (c ++ extra) = PyStr.slice 2 4 c
  /\ PyStr.slice 4 6 (c ++ extra) = PyStr.slice 4 6 c.
Proof.
  intros H. do 6 (destruct c as [|? c]; [discriminate|]).
  destruct c; [|discriminate]. destruct extra; repeat split.
Qed.

Lemma slice_4_6_short (s : string) :
  String.length s <= 4 -> PyStr.slice 4 6 s = "".
Proof.
  intros H. do 4 (destruct s as [|? s]; [reflexivity|]).
  destruct s; [reflexivity | simpl in H; lia].
Qed.

End LightenFacts.

(** X16.  [lighten] reads the first six characters behind the leading
    markers and nothing else: more markers in front, and whatever follows
    the six characters, change nothing. *)
Theorem lighten_reads_six_characters
        (n : nat) (c extra : string) (amount : float) :
  String.length c = 6 ->
  PyStr.startswith "#" c = false ->
  ColorUtils.lighten (Spec.hashes n ++ c ++ extra) amount
  = ColorUtils.lighten c amount.
Proof.
  intros Hl Hs.
  assert (Hs' : PyStr.startswith "#" (c ++ extra) = false).
  { rewrite startswith_hash in *. destruct c; [discriminate | exact Hs]. }
  unfold ColorUtils.lighten, ColorUtils.lighten_channels.
  rewrite (lstrip_hashes n (c ++ extra) Hs').
  rewrite (lstrip_hashes 0 c Hs : PyStr.lstrip_by _ c = c).
  destruct (slices_of_six c extra Hl) as (-> & -> & ->). reflexivity.
Qed.

Lemma lighten_reads_six_characters_witness :
  ColorUtils.lighten (Spec.hashes 2 ++ "1E1E2E" ++ "80") ThemeBuilder.amount_alt
  = ColorUtils.lighten "1E1E2E" ThemeBuilder.amount_alt.
Proof.
  exact (lighten_reads_six_characters 2 "1E1E2E" "80" ThemeBuilder.amount_alt
                                      eq_refl eq_refl).
Defined.

(** X17.  [lighten] raises [ValueError] for every string that has fewer
    than five characters behind its leading markers, the empty string
    among them. *)
Theorem lighten_short_color (hex_color : string) (amount : float) :
  String.length (ColorValidator.strip_hash hex_color) <= 4 ->
  exists msg, ColorUtils.lighten hex_color amount = Raise (ValueError msg).
Proof.
  intros H. unfold ColorUtils.lighten, ColorUtils.lighten_channels.
  fold (ColorValidator.strip_hash hex_color).
  rewrite (slice_4_6_short _ H).
  destruct (Hex.int16 (PyStr.slice 0 2 _)) as [r|e] eqn:Er;
    [|destruct (int16_raise _ _ Er) as [m ->]; cbn [bind]; eauto].
  destruct (Hex.int16 (PyStr.slice 2 4 _)) as [g|e] eqn:Eg;
    [|destruct (int16_raise _ _ Eg) as [m ->]; cbn [bind]; eauto].
  cbn [bind Hex.int16]. eauto.
Qed.

Lemma lighten_short_color_witness :
  exists msg, ColorUtils.lighten "#fff" 0%float = Raise (ValueError msg).
Proof. apply lighten_short_color. vm_compute. auto with arith. Defined.

(** X18.  For a gray background (three equal channels) the two colours the
    launcher stylesheet derives, lightened by 0.08 and by 0.18, are grays
    again: [lighten] returns for both, the channel grows from the
    background to the first and from the first to the second, and stays
    at most 255. *)
Theorem lighten_gray_background (v : Z) :
  (0 <= v <= 255)%Z ->
  exists w1 w2 : Z,
    (v <= w1 <= w2)%Z /\ (w2 <= 255)%Z
    /\ ColorUtils.lighten (Spec.gray v) ThemeBuilder.amount_alt
       = Ok (PyStr.lower (Spec.gray w1))
    /\ ColorUtils.lighten (Spec.gray v) ThemeBuilder.amount_hover
       = Ok (PyStr.lower (Spec.gray w2)).
Proof.
  intros Hv.
  pose (is_ok := fun (r : result string) (s : string) =>
                   match r with
                   | Ok s' => String.eqb s' s
                   | Raise _ => false
                   end).
  pose (P := fun v : Z =>
               match ColorUtils.lighten_channels (Spec.gray v)
                                                 ThemeBuilder.amount_alt,
                     ColorUtils.lighten_channels (Spec.gray v)
                                                 ThemeBuilder.amount_hover with
               | Ok (w1, _, _), Ok (w2, _, _) =>
                   (v <=? w1)%Z && (w1 <=? w2)%Z && (w2 <=? 255)%Z
                   && is_ok (ColorUtils.lighten (Spec.gray v)
                                                ThemeBuilder.amount_alt)
                            (PyStr.lower (Spec.gray w1))
                   && is_ok (ColorUtils.lighten (Spec.gray v)
                                                ThemeBuilder.amount_hover)
                            (PyStr.lower (Spec.gray w2))
               | _, _ => false
               end).
  assert (H : P v = true)
    by (apply (Z_below_all P 256); [vm_compute; reflexivity | lia]).
  unfold P in H.
  destruct (ColorUtils.lighten_channels (Spec.gray v) ThemeBuilder.amount_alt)
    as [[[w1 ?] ?]|]; [|discriminate].
  destruct (ColorUtils.lighten_channels (Spec.gray v) ThemeBuilder.amount_hover)
    as [[[w2 ?] ?]|]; [|discriminate].
  repeat (apply andb_true_iff in H as [H ?]).
  exists w1, w2. unfold is_ok in *.
  destruct (ColorUtils.lighten (Spec.gray v) ThemeBuilder.amount_alt) as [s1|];
    [|discriminate].
  destruct (ColorUtils.lighten (Spec.gray v) ThemeBuilder.amount_hover)
    as [s2|]; [|discriminate].
  repeat match goal with
         | E : String.eqb _ _ = true |- _ => apply String.eqb_eq in E; subst
         end.
  repeat split; auto; lia.
Qed.

Lemma lighten_gray_background_witness :
  exists w1 w2 : Z,
    (30 <= w1 <= w2)%Z /\ (w2 <= 255)%Z
    /\ ColorUtils.lighten (Spec.gray 30) ThemeBuilder.amount_alt
       = Ok (PyStr.lower (Spec.gray w1))
    /\ ColorUtils.lighten (Spec.gray 30) ThemeBuilder.amount_hover
       = Ok (PyStr.lower (Spec.gray w2)).
Proof. apply lighten_gray_background. lia. Defined.

(** ** Warnings and the validated mapping *)

Section WarningFacts.

Import OverrideManager.

Lemma read_line_warnings (fname : string) (n : nat) (line : string)
      (st : reading) :
  List.length (snd (read_line fname n line st))
  = List.length (snd st)
    + match entry_of_line line with
      | Some (_, value) =>
          if Spec.plain_color (PyStr.strip value) then 0 else 1
      | None => 0
      end.
Proof.
  unfold read_line. destruct (entry_of_line line) as [[k v]|]; [|lia].
  pose proof (validate_returns_iff
                v (fname ++ " line " ++ PyStr.of_nat n)) as Hiff.
  destruct (ColorValidator.validate v _) as [c|e] eqn:E.
  - rewrite (proj1 Hiff (ex_intro _ c eq_refl)). cbn [snd]. lia.
  - destruct (Spec.plain_color (PyStr.strip v)).
    + destruct (proj2 Hiff eq_refl) as [c Hc]. discriminate.
    + cbn [snd]. rewrite List.length_app. reflexivity.
Qed.

Lemma read_lines_warnings (fname : string) (lines : list string) :
  forall (n : nat) (st : reading),
    List.length (snd (read_lines fname n lines st))
    = List.length (snd st)
      + List.length
          (List.filter
             (fun line =>
                match entry_of_line line with
                | Some (_, value) =>
                    negb (Spec.plain_color (PyStr.strip value))
                | None => false
                end) lines).
Proof.
  induction lines as [|l lines IH]; intros n st; simpl; [lia|].
  rewrite IH, read_line_warnings.
  destruct (entry_of_line l) as [[k v]|]; [|simpl; lia].
  destruct (Spec.plain_color (PyStr.strip v)); simpl; lia.
Qed.

End WarningFacts.

(** X19.  [read_overrides] prints one line on the diagnostic stream for
    each line of the file that gives a key a value which is not a colour,
    and nothing for any other line. *)
Theorem read_overrides_one_warning_per_invalid_value
        (filepath : OverrideManager.file) :
  List.length (snd (OverrideManager.read_overrides filepath))
  = match OverrideManager.text filepath with
    | None => 0
    | Some content =>
        List.length
          (List.filter
             (fun line =>
                match OverrideManager.entry_of_line line with
                | Some (_, value) =>
                    negb (Spec.plain_color (PyStr.strip value))
                | None => false
                end)
             (PyStr.splitlines content))
    end.
Proof.
  unfold OverrideManager.read_overrides.
  destruct (OverrideManager.text filepath); [|reflexivity].
  now rewrite read_lines_warnings.
Qed.

(** X20.  When the validation loop of [build] succeeds on a mapping with
    distinct keys, it leaves the same keys in the same order, and every
    value in canonical form. *)
Theorem validate_semantic_canonical (merged semantic : Dict.t) :
  NoDup (Dict.keys merged) ->
  ThemeBuilder.validate_semantic merged = Ok semantic ->
  Dict.keys semantic = Dict.keys merged
  /\ Forall (fun e => Spec.canonical (snd e) = true) semantic.
Proof.
  intros ND H. split; [now apply validate_semantic_keys|].
  pose proof (validate_semantic_ok _ _ ND H) as HF. clear - HF.
  induction HF as [|[k v] [k' v'] merged semantic [_ Hv] _ IH];
    constructor; [|exact IH].
  cbn [snd fst] in *. now apply (validate_canonical _ _ _ Hv).
Qed.

Lemma validate_semantic_canonical_witness :
  Dict.keys [("accent", "#89B4FA"); ("urgent", "#F38BA8")]
  = Dict.keys [("accent", " 89b4fa"); ("urgent", "f38ba8")]
  /\ Forall (fun e => Spec.canonical (snd e) = true)
            [("accent", "#89B4FA"); ("urgent", "#F38BA8")].
Proof.
  apply (validate_semantic_canonical
           [("accent", " 89b4fa"); ("urgent", "f38ba8")]).
  - repeat constructor; simpl; intuition discriminate.
  - reflexivity.
Defined.
